(** * helm-repo-multichart: the release action of [src/index.js]

    A shallow embedding of the GitHub action that tags, packages and
    publishes the Helm charts whose [Chart.yaml] changed in the latest
    commit, and the properties of its change extraction, its two
    reconcilers and its sequencing.

    The action is sequential [async] code over external collaborators
    (git, the GitHub API, the file system, the [cr] binary).  A run is
    modelled as a computation that appends to a log of the collaborator
    calls it makes and either returns a value or throws. *)

From Stdlib Require Import String Ascii List Bool.
From Stdlib Require Import Arith Lia.
Import ListNotations.

Local Open Scope string_scope.
Local Open Scope list_scope.

(** ** JavaScript values the action handles

    Environment variables and manifest fields are either a string or
    [undefined]; a manifest field of another type (a YAML number) is
    taken as the string it renders to.  [template] is what a template
    literal [`${v}`] renders; [falsy] is the test of [!v]. *)

Inductive jsval : Type :=
  | JUndefined
  | JStr (s : string).

Definition template (v : jsval) : string :=
  match v with
  | JUndefined => "undefined"
  | JStr s => s
  end.

Definition falsy (v : jsval) : bool :=
  match v with
  | JUndefined => true
  | JStr s => (s =? "")%string
  end.

(** [s.split(sep)] for a one-character separator: the empty string
    splits into one empty segment. *)
Fixpoint split (sep : ascii) (s : string) : list string :=
  match s with
  | EmptyString => [EmptyString]
  | String c s' =>
      if Ascii.eqb c sep then EmptyString :: split sep s'
      else match split sep s' with
           | [] => [String c EmptyString]
           | seg :: segs => String c seg :: segs
           end
  end.

(** [l.join(sep)] *)
Definition join (sep : string) (l : list string) : string :=
  String.concat sep l.

(** [s.startsWith(p)] *)
Definition startsWith (s p : string) : bool := String.prefix p s.

(** ** Results, events and the run monad *)

(** What a [throw] carries: the text [`${err}`] renders. *)
Definition err : Type := string.

Inductive result (A : Type) : Type :=
  | Ok (a : A)
  | Throw (e : err).
Arguments Ok {A} a.
Arguments Throw {A} e.

(** One entry per call into a collaborator, in call order. *)
Inductive event : Type :=
  | EInfo (msg : string)                       (* core.info *)
  | EDebug (msg : string)                      (* core.debug *)
  | EError (e : err)                           (* core.error of err.stack *)
  | ESetFailed (msg : string)                  (* core.setFailed *)
  | EAddPath (p : string)                      (* core.addPath *)
  | EDownloadTool (url : string)               (* tc.downloadTool *)
  | EExtractTar (file dest : string)           (* tc.extractTar *)
  | ECacheFile (file target tool ver : string) (* tc.cacheFile *)
  | ERmRF (p : string)                         (* io.rmRF *)
  | EMkdirP (p : string)                       (* io.mkdirP *)
  | EGetLatestChanges                          (* git.getLatestChanges *)
  | ELoadChart (path : string)                 (* fs.readFileSync + yaml.load *)
  | EHasTag (tag : string)                     (* git.hasTag *)
  | EReleaseRequest (tag : string)             (* octokit.request GET release *)
  | ECreateTag (tag : string)                  (* git.createTag *)
  | EExec (cmd : string) (args : list jsval).  (* exec.exec *)

Definition run (A : Type) : Type := (list event * result A)%type.

Definition ret {A} (a : A) : run A := ([], Ok a).

Definition throw {A} (e : err) : run A := ([], Throw e).

Definition bind {A B} (m : run A) (f : A -> run B) : run B :=
  match m with
  | (t, Ok a) => let (t', r) := f a in (t ++ t', r)
  | (t, Throw e) => (t, Throw e)
  end.

(** [try { m } catch (e) { h e }] *)
Definition try_catch {A} (m : run A) (h : err -> run A) : run A :=
  match m with
  | (t, Ok a) => (t, Ok a)
  | (t, Throw e) => let (t', r) := h e in (t ++ t', r)
  end.

(** A call into a collaborator: logged, then its outcome. *)
Definition call {A} (e : event) (r : result A) : run A := ([e], r).

Declare Scope run_scope.
Delimit Scope run_scope with run.
Notation "x <- m ;; k" := (bind m (fun x => k))
  (at level 61, m at next level, right associativity) : run_scope.
Notation "m ;; k" := (bind m (fun _ => k))
  (at level 61, right associativity) : run_scope.
Local Open Scope run_scope.

(** [for (const x of l) { acc = body acc x }] and [l.reduce(body, acc)]:
    a throw in the body ends the loop. *)
Fixpoint foldM {A B} (body : B -> A -> run B) (l : list A) (acc : B) : run B :=
  match l with
  | [] => ret acc
  | x :: l' => acc' <- body acc x ;; foldM body l' acc'
  end.

Definition for_of {A} (l : list A) (body : A -> run unit) : run unit :=
  foldM (fun _ x => body x) l tt.

(** ** Data of the action *)

(** What [getChangedCharts] pushes: [{ chart: name, version }]. *)
Record change : Type := { chart : jsval; version : jsval }.

(** The object [yaml.load] yields for a manifest, as far as the
    destructuring [{ name, version }] reads it. *)
Record doc : Type := { doc_name : jsval; doc_version : jsval }.

(** The inputs and environment read when the module loads. *)
Record inputs : Type := {
  GITHUB_WORKSPACE : jsval;
  GITHUB_SHA : jsval;
  input_chart_repo_url : string;
  input_chart_dir : string;
  input_dry_run : bool;
  input_chart_releaser_version : string;
  owner : string;
  repo : string
}.

(** The collaborators.  A [Throw] is a rejected promise or a raised
    exception.  [yaml_load] stands for [yaml.load(fs.readFileSync(path))];
    it yields [None] for a document that is [null] or [undefined].
    [octokit_request] is the request for the release of a tag.  [main]
    makes every query before its first mutating call, so the answers are
    taken as fixed for the run. *)
Record world : Type := {
  git_getLatestChanges : result (list string);
  git_hasTag : string -> result bool;
  git_createTag : string -> result unit;
  octokit_request : string -> result unit;
  yaml_load : string -> result (option doc);
  Path_resolve : string -> string;
  exec_exec : string -> list jsval -> result unit;
  io_rmRF : string -> result unit;
  io_mkdirP : string -> result unit;
  tc_downloadTool : string -> result string;
  tc_extractTar : string -> string -> result string;
  tc_cacheFile : string -> string -> string -> string -> result string
}.

(** [x || d] on strings *)
Definition or_default (x d : string) : string :=
  if (x =? "")%string then d else x.

Definition defaultChartReleaserVersion : string := "3.8.0".
Definition defaultChartDir : string := "charts".
Definition defaultDryRun : bool := false.

(** The template literal [`${c.chart}-${c.version}`], written out in
    [getNeededTags], [getNeededBuilds], [createTags] and [main]. *)
Definition versionTag (c : change) : string :=
  (template (chart c) ++ "-" ++ template (version c))%string.

Section Action.

Variable cfg : inputs.
Variable w : world.

Definition work_dir : jsval := GITHUB_WORKSPACE cfg.
Definition git_ref : jsval := GITHUB_SHA cfg.
Definition chart_repo_url : string := input_chart_repo_url cfg.
Definition chart_dir : string := or_default (input_chart_dir cfg) defaultChartDir.
Definition dry_run : bool := input_dry_run cfg || defaultDryRun.

(** The logging calls of [@actions/core] return normally; [setFailed]
    logs the message and sets the exit code of the process, it does not
    end the run. *)
Definition info (msg : string) : run unit := call (EInfo msg) (Ok tt).
Definition debug (msg : string) : run unit := call (EDebug msg) (Ok tt).
Definition error (e : err) : run unit := call (EError e) (Ok tt).
Definition setFailed (msg : string) : run unit := call (ESetFailed msg) (Ok tt).

Definition skipIfDryRun {A} (func : run A) : run (option A) :=
  if negb dry_run then
    a <- func ;; ret (Some a)
  else
    info "Skipping due to dry_run" ;;
    ret None.

Definition fetchTools : run unit :=
  let chartReleaserVersion :=
    or_default (input_chart_releaser_version cfg) defaultChartReleaserVersion in
  let url :=
    ("https://github.com/helm/chart-releaser/releases/download/v"
       ++ chartReleaserVersion ++ "/chart-releaser_"
       ++ chartReleaserVersion ++ "_linux_amd64.tar.gz")%string in
  chartReleaserPath <- call (EDownloadTool url) (tc_downloadTool w url) ;;
  chartReleaserExtractedFolder <-
    call (EExtractTar chartReleaserPath "tools/chart-releaser")
         (tc_extractTar w chartReleaserPath "tools/chart-releaser") ;;
  let file := (chartReleaserExtractedFolder ++ "/cr")%string in
  chartReleaserCachedPath <-
    call (ECacheFile file "cr" "cr" chartReleaserVersion)
         (tc_cacheFile w file "cr" "cr" chartReleaserVersion) ;;
  call (EAddPath chartReleaserCachedPath) (Ok tt).

Definition loadChart (path : string) : run (option doc) :=
  call (ELoadChart path) (yaml_load w path).

(** The callback of [changes.reduce] in [getChangedCharts].  The
    destructuring [[_, chart, ...relPath]] leaves in [relPath] the
    segments from the third on; [chart], the directory name, is not
    used.  Destructuring a [null] document throws. *)
Definition changed_step (changed : list change) (path : string) : run (list change) :=
  if startsWith path chart_dir then
    let relPath := skipn 2 (split "/" path) in
    if (join "" relPath =? "Chart.yaml")%string then
      d <- loadChart (Path_resolve w (template work_dir ++ "/" ++ path)%string) ;;
      match d with
      | None => throw "TypeError: Cannot destructure property 'name'"
      | Some m =>
          ret (changed ++ [{| chart := doc_name m; version := doc_version m |}])
      end
    else ret changed
  else ret changed.

Definition getChangedCharts : run (list change) :=
  changes <- call EGetLatestChanges (git_getLatestChanges w) ;;
  foldM changed_step changes [].

Definition getNeededTags (changes : list change) : run (list change) :=
  foldM (fun tags change =>
           let tag := versionTag change in
           b <- call (EHasTag tag) (git_hasTag w tag) ;;
           if b : bool then
             debug ("Skipping existing tag " ++ tag)%string ;;
             ret tags
           else ret (tags ++ [change]))
        changes [].

Definition releaseExists (tag : string) : run bool :=
  returned <-
    try_catch
      (call (EReleaseRequest tag) (octokit_request w tag) ;; ret None)
      (fun _ => ret (Some false)) ;;
  match returned with
  | Some b => ret b
  | None => ret true
  end.

Definition getNeededBuilds (changes : list change) : run (list change) :=
  foldM (fun releases change =>
           let tag := versionTag change in
           b <- releaseExists tag ;;
           if b : bool then
             debug ("Skipping existing release " ++ tag)%string ;;
             ret releases
           else ret (releases ++ [change]))
        changes [].

Definition createTags (tags : list change) : run unit :=
  for_of tags (fun tag =>
    let _tag := versionTag tag in
    call (ECreateTag _tag) (git_createTag w _tag)).

Definition cr (args : list jsval) : run unit :=
  call (EExec "cr" args) (exec_exec w "cr" args).

Definition packageCharts (changes : list change) : run unit :=
  for_of changes (fun change =>
    cr [JStr "package"; JStr (chart_dir ++ "/" ++ template (chart change))%string]).

Definition publishCharts : run unit :=
  cr [JStr "upload"; JStr "-o"; JStr (owner cfg); JStr "-r"; JStr (repo cfg);
      JStr "-c"; git_ref].

Definition updateIndex : run unit :=
  cr [JStr "index"; JStr "-o"; JStr (owner cfg); JStr "-r"; JStr (repo cfg);
      JStr "-c"; JStr chart_repo_url; JStr "--push"].

(** [l.length] as a condition *)
Definition nonempty {A} (l : list A) : bool :=
  match l with [] => false | _ :: _ => true end.

Definition tagList (l : list change) : string := join ", " (map versionTag l).

Definition main : run unit :=
  fetchTools ;;
  call (ERmRF (template work_dir ++ "/.cr-release-packages")%string)
       (io_rmRF w (template work_dir ++ "/.cr-release-packages")%string) ;;
  call (EMkdirP (template work_dir ++ "/.cr-release-packages")%string)
       (io_mkdirP w (template work_dir ++ "/.cr-release-packages")%string) ;;
  call (ERmRF (template work_dir ++ "/.cr-index")%string)
       (io_rmRF w (template work_dir ++ "/.cr-index")%string) ;;
  call (EMkdirP (template work_dir ++ "/.cr-index")%string)
       (io_mkdirP w (template work_dir ++ "/.cr-index")%string) ;;
  changes <- getChangedCharts ;;
  neededTags <- getNeededTags changes ;;
  neededBuilds <- getNeededBuilds changes ;;
  (if nonempty neededTags then
     info ("Creating tags: " ++ tagList neededTags)%string ;;
     skipIfDryRun (createTags neededTags) ;;
     ret tt
   else info "No tags to create") ;;
  (if nonempty neededBuilds then
     info ("Packaging charts: " ++ tagList neededBuilds)%string ;;
     skipIfDryRun (packageCharts neededBuilds) ;;
     info ("Publishing charts: " ++ tagList neededBuilds)%string ;;
     skipIfDryRun publishCharts ;;
     info "Generating chart repo index" ;;
     skipIfDryRun updateIndex ;;
     ret tt
   else info "Nothing to build").

(** The module body: the workspace check of lines 29-31, then
    [main().then(...).catch(...)]. *)
Definition action : run unit :=
  (if falsy work_dir then setFailed "Unable to locate workspace!" else ret tt) ;;
  try_catch
    (main ;; info "Action Completed Successfully")
    (fun e =>
       error e ;;
       setFailed ("Error during action execution! " ++ e)%string).

End Action.

(** ** Classes of events *)

(** The calls that change the repository or the release platform: the
    tag creator and the three invocations of [cr]. *)
Definition is_mutation (e : event) : bool :=
  match e with
  | ECreateTag _ | EExec _ _ => true
  | _ => false
  end.

(** The calls a run makes up to and including change extraction. *)
Definition is_upstream (e : event) : bool :=
  match e with
  | ESetFailed _ | EAddPath _ | EDownloadTool _ | EExtractTar _ _
  | ECacheFile _ _ _ _ | ERmRF _ | EMkdirP _ | EGetLatestChanges
  | ELoadChart _ => true
  | _ => false
  end.

Definition is_setFailed (e : event) : bool :=
  match e with
  | ESetFailed _ => true
  | _ => false
  end.

(** [core.setFailed] sets the exit code of the process: the run is
    reported as failed when it was called. *)
Definition failed (log : list event) : bool := existsb is_setFailed log.

(** Whether the release query answers for [tag]. *)
Definition released (w : world) (tag : string) : bool :=
  match octokit_request w tag with
  | Ok _ => true
  | Throw _ => false
  end.

(** The filter of [getChangedCharts], as one test on a path. *)
Definition isManifestChange (cfg : inputs) (path : string) : bool :=
  startsWith path (chart_dir cfg)
  && (join "" (skipn 2 (split "/" path)) =? "Chart.yaml")%string.

(** The two conditionals that end [main]. *)
Definition release_steps (cfg : inputs) (w : world)
    (neededTags neededBuilds : list change) : run unit :=
  (if nonempty neededTags then
     info ("Creating tags: " ++ tagList neededTags)%string ;;
     skipIfDryRun cfg (createTags w neededTags) ;;
     ret tt
   else info "No tags to create") ;;
  (if nonempty neededBuilds then
     info ("Packaging charts: " ++ tagList neededBuilds)%string ;;
     skipIfDryRun cfg (packageCharts cfg w neededBuilds) ;;
     info ("Publishing charts: " ++ tagList neededBuilds)%string ;;
     skipIfDryRun cfg (publishCharts cfg w) ;;
     info "Generating chart repo index" ;;
     skipIfDryRun cfg (updateIndex cfg w) ;;
     ret tt
   else info "Nothing to build").

(** The four calls of the Prepare step. *)
Definition prepare_log (cfg : inputs) : list event :=
  [ERmRF (template (work_dir cfg) ++ "/.cr-release-packages")%string;
   EMkdirP (template (work_dir cfg) ++ "/.cr-release-packages")%string;
   ERmRF (template (work_dir cfg) ++ "/.cr-index")%string;
   EMkdirP (template (work_dir cfg) ++ "/.cr-index")%string].

(** What a dry run logs in place of the mutating steps. *)
Definition dry_run_log (neededTags neededBuilds : list change) : list event :=
  (if nonempty neededTags then
     [EInfo ("Creating tags: " ++ tagList neededTags)%string;
      EInfo "Skipping due to dry_run"]
   else [EInfo "No tags to create"])
  ++
  (if nonempty neededBuilds then
     [EInfo ("Packaging charts: " ++ tagList neededBuilds)%string;
      EInfo "Skipping due to dry_run";
      EInfo ("Publishing charts: " ++ tagList neededBuilds)%string;
      EInfo "Skipping due to dry_run";
      EInfo "Generating chart repo index";
      EInfo "Skipping due to dry_run"]
   else [EInfo "Nothing to build"]).

(** What [getNeededTags] logs when the tag oracle answers [tagExists]:
    one query per record, and a debug line for each tag that exists. *)
Definition tag_log (tagExists : string -> bool) (changes : list change) : list event :=
  flat_map (fun c =>
              EHasTag (versionTag c) ::
              if tagExists (versionTag c)
              then [EDebug ("Skipping existing tag " ++ versionTag c)%string]
              else [])
           changes.

(** What [getNeededBuilds] logs. *)
Definition release_log (w : world) (changes : list change) : list event :=
  flat_map (fun c =>
              EReleaseRequest (versionTag c) ::
              if released w (versionTag c)
              then [EDebug ("Skipping existing release " ++ versionTag c)%string]
              else [])
           changes.

(** The packaging call for one record. *)
Definition package_call (cfg : inputs) (c : change) : event :=
  EExec "cr" [JStr "package";
              JStr (chart_dir cfg ++ "/" ++ template (chart c))%string].

Definition quiet (e : event) : bool := negb (is_mutation e).

Definition not_setFailed (e : event) : bool := negb (is_setFailed e).

(** The record [getChangedCharts] makes of a manifest. *)
Definition record_of (d : doc) : change :=
  {| chart := doc_name d; version := doc_version d |}.

(** The path [getChangedCharts] hands to [loadChart]. *)
Definition manifest_path (cfg : inputs) (w : world) (path : string) : string :=
  Path_resolve w (template (work_dir cfg) ++ "/" ++ path)%string.

(** The outcome of a reconciler, read as the tags of the records kept. *)
Definition kept_tags (r : result (list change)) : result (list string) :=
  match r with
  | Ok l => Ok (map versionTag l)
  | Throw e => Throw e
  end.

(** ** Concrete inputs and collaborators used in the examples *)

Module Demo.

Definition cfg (workspace : jsval) (dry : bool) : inputs :=
  {| GITHUB_WORKSPACE := workspace;
     GITHUB_SHA := JStr "4f2a9c1";
     input_chart_repo_url := "https://example.github.io/charts";
     input_chart_dir := "";
     input_dry_run := dry;
     input_chart_releaser_version := "";
     owner := "example";
     repo := "charts" |}.

(** [Path.resolve] keeps an absolute path and roots a relative one in
    the working directory of the process. *)
Definition resolve (p : string) : string :=
  if startsWith p "/" then p else ("/home/runner/" ++ p)%string.

(** Collaborators whose tools, directories, tag creation and [cr] calls
    succeed; the commit changed [paths]. *)
Definition world_with (paths : list string)
    (load : string -> result (option doc))
    (hasTag : string -> result bool)
    (request : string -> result unit) : world :=
  {| git_getLatestChanges := Ok paths;
     git_hasTag := hasTag;
     git_createTag := fun _ => Ok tt;
     octokit_request := request;
     yaml_load := load;
     Path_resolve := resolve;
     exec_exec := fun _ _ => Ok tt;
     io_rmRF := fun _ => Ok tt;
     io_mkdirP := fun _ => Ok tt;
     tc_downloadTool := fun _ => Ok "/tmp/cr.tar.gz";
     tc_extractTar := fun _ _ => Ok "/tmp/cr";
     tc_cacheFile := fun _ _ _ _ => Ok "/opt/hostedtoolcache/cr" |}.

Definition listed (l : list string) (t : string) : bool :=
  existsb (String.eqb t) l.

(** Nothing fails: [manifest] answers the manifest reads, [tags] and
    [releases] list what exists already. *)
Definition world_of (paths : list string) (manifest : string -> option doc)
    (tags releases : list string) : world :=
  world_with paths
    (fun p => Ok (manifest p))
    (fun t => Ok (listed tags t))
    (fun t => if listed releases t then Ok tt
              else Throw "HttpError: Not Found").

(** The manifest reader fails to parse. *)
Definition broken_manifest (paths : list string) : world :=
  world_with paths
    (fun _ => Throw "YAMLException: bad indentation of a mapping entry")
    (fun _ => Ok false)
    (fun _ => Throw "HttpError: Not Found").

(** The release query fails for a reason other than a missing release. *)
Definition api_down (paths : list string) (manifest : string -> option doc)
    (tags : list string) : world :=
  world_with paths
    (fun p => Ok (manifest p))
    (fun t => Ok (listed tags t))
    (fun _ => Throw "HttpError: Bad Gateway").

Definition foo_120 : doc := {| doc_name := JStr "foo"; doc_version := JStr "1.2.0" |}.

Definition always (d : doc) (p : string) : option doc := Some d.

Definition foo_change : change := {| chart := JStr "foo"; version := JStr "1.2.0" |}.

Definition workspace : jsval := JStr "/home/runner/work/charts".

(** The tag [foo-1.2.0] exists, its release does not. *)
Definition tagged_unreleased : world :=
  world_of ["charts/foo/Chart.yaml"] (always foo_120) ["foo-1.2.0"] [].

(** Tag and release of [foo-1.2.0] both exist. *)
Definition all_done : world :=
  world_of ["charts/foo/Chart.yaml"] (always foo_120) ["foo-1.2.0"] ["foo-1.2.0"].

(** Neither exists. *)
Definition fresh : world :=
  world_of ["charts/foo/Chart.yaml"] (always foo_120) [] [].

Definition release_api_down : world :=
  api_down ["charts/foo/Chart.yaml"] (always foo_120) [].

Definition malformed : world := broken_manifest ["charts/foo/Chart.yaml"].

(** The commit changed a file named [.yaml] in a directory [Chart] of the
    package [foo]. *)
Definition nested : world :=
  world_of ["charts/foo/Chart/.yaml"] (always foo_120) [] [].

(** The commit changed a manifest in a sibling of the chart directory. *)
Definition sibling : world :=
  world_of ["charts-old/foo/Chart.yaml"] (always foo_120) [] [].

(** The manifest in [charts/dir-a] declares the name [other]. *)
Definition other_031 : doc :=
  {| doc_name := JStr "other"; doc_version := JStr "0.3.1" |}.

Definition other_change : change :=
  {| chart := JStr "other"; version := JStr "0.3.1" |}.

Definition renamed : world :=
  world_of ["charts/dir-a/Chart.yaml"] (always other_031) [] [].

(** Two records with one tag. *)
Definition foo_1_00 : change := {| chart := JStr "foo"; version := JStr "1-0.0" |}.
Definition foo1_00 : change := {| chart := JStr "foo-1"; version := JStr "0.0" |}.

(** Manifests that declare the two records. *)
Definition doc_of (c : change) : doc :=
  {| doc_name := chart c; doc_version := version c |}.

Definition collide_a : world :=
  world_of ["charts/foo/Chart.yaml"] (always (doc_of foo_1_00)) [] [].

Definition collide_b : world :=
  world_of ["charts/foo/Chart.yaml"] (always (doc_of foo1_00)) [] [].

(** The commit changed nothing under the chart directory. *)
Definition outside : world :=
  world_of ["docs/foo/Chart.yaml"; "README.md"; "chart/foo/Chart.yaml"]
           (always foo_120) [] [].

(** The three changed paths of a commit that touched the manifest and the
    values of [foo] and the readme of [bar]. *)
Definition mixed : world :=
  world_of ["charts/foo/Chart.yaml"; "charts/foo/values.yaml";
            "charts/bar/README.md"]
           (always foo_120) [] [].

End Demo.

(** ** Further classes of events and logs *)

(** The existence checks of the two reconcilers. *)
Definition is_query (e : event) : bool :=
  match e with
  | EHasTag _ | EReleaseRequest _ => true
  | _ => false
  end.

Definition no_query (e : event) : bool := negb (is_query e).

Definition is_release_query (e : event) : bool :=
  match e with
  | EReleaseRequest _ => true
  | _ => false
  end.

(** Neither a mutating call nor a release query. *)
Definition before_builds (e : event) : bool :=
  negb (is_mutation e) && negb (is_release_query e).

(** The calls of the tool fetch and of Prepare, and the failure report. *)
Definition is_setup (e : event) : bool :=
  match e with
  | ESetFailed _ | EError _ | EAddPath _ | EDownloadTool _ | EExtractTar _ _
  | ECacheFile _ _ _ _ | ERmRF _ | EMkdirP _ => true
  | _ => false
  end.


Definition succeeded {A} (r : result A) : bool :=
  match r with
  | Ok _ => true
  | Throw _ => false
  end.

(** Whether the four calls of Prepare succeed. *)
Definition prepare_succeeds (cfg : inputs) (w : world) : bool :=
  succeeded (io_rmRF w (template (work_dir cfg) ++ "/.cr-release-packages")%string)
  && succeeded (io_mkdirP w (template (work_dir cfg) ++ "/.cr-release-packages")%string)
  && succeeded (io_rmRF w (template (work_dir cfg) ++ "/.cr-index")%string)
  && succeeded (io_mkdirP w (template (work_dir cfg) ++ "/.cr-index")%string).

(** The arguments [cr] is called with. *)
Definition package_args (cfg : inputs) (c : change) : list jsval :=
  [JStr "package"; JStr (chart_dir cfg ++ "/" ++ template (chart c))%string].

Definition upload_args (cfg : inputs) : list jsval :=
  [JStr "upload"; JStr "-o"; JStr (owner cfg); JStr "-r"; JStr (repo cfg);
   JStr "-c"; git_ref cfg].

Definition index_args (cfg : inputs) : list jsval :=
  [JStr "index"; JStr "-o"; JStr (owner cfg); JStr "-r"; JStr (repo cfg);
   JStr "-c"; JStr (chart_repo_url cfg); JStr "--push"].

Definition create_call (c : change) : event := ECreateTag (versionTag c).

(** What the tagging conditional of [main] logs in a real run that
    reaches the end of tag creation. *)
Definition tag_stage_log (neededTags : list change) : list event :=
  if nonempty neededTags then
    EInfo ("Creating tags: " ++ tagList neededTags)%string
      :: map create_call neededTags
  else [EInfo "No tags to create"].

(** What the build conditional logs in a real run in which no [cr] call
    fails. *)
Definition build_stage_log (cfg : inputs) (neededBuilds : list change) : list event :=
  if nonempty neededBuilds then
    EInfo ("Packaging charts: " ++ tagList neededBuilds)%string
      :: map (package_call cfg) neededBuilds
      ++ [EInfo ("Publishing charts: " ++ tagList neededBuilds)%string;
          EExec "cr" (upload_args cfg);
          EInfo "Generating chart repo index";
          EExec "cr" (index_args cfg)]
  else [EInfo "Nothing to build"].

(** The mutating calls of such a run, in order. *)
Definition mutations_of (cfg : inputs) (neededTags neededBuilds : list change)
  : list event :=
  map create_call neededTags
  ++ (if nonempty neededBuilds then
        map (package_call cfg) neededBuilds
        ++ [EExec "cr" (upload_args cfg); EExec "cr" (index_args cfg)]
      else []).

(** The mutating calls the action may make on the change set [changes]:
    a tag or a packaging of one of its records, the upload, the index. *)
Definition allowed (cfg : inputs) (changes : list change) (e : event) : Prop :=
  match e with
  | ECreateTag t => exists c, In c changes /\ t = versionTag c
  | EExec cmd args =>
      cmd = "cr"
      /\ (args = upload_args cfg \/ args = index_args cfg
          \/ exists c, In c changes /\ args = package_args cfg c)
  | _ => True
  end.

(** A log in two phases: no mutating call in the first, no existence
    check in the second. *)
Definition phased (log : list event) : Prop :=
  exists pre post,
    log = pre ++ post
    /\ filter is_mutation pre = []
    /\ filter is_query post = [].

(** Whether a string holds a [/], and the string without them. *)
Fixpoint has_slash (s : string) : bool :=
  match s with
  | EmptyString => false
  | String c s' => Ascii.eqb c "/" || has_slash s'
  end.

Fixpoint strip (s : string) : string :=
  match s with
  | EmptyString => EmptyString
  | String c s' => if Ascii.eqb c "/" then strip s' else String c (strip s')
  end.

(** The path of the manifest of package directory [pkg]. *)
Definition manifest_of (cfg : inputs) (pkg : string) : string :=
  (chart_dir cfg ++ "/" ++ pkg ++ "/Chart.yaml")%string.

(** [main] up to the two reconcilers, with what they return. *)
Definition reconcile (cfg : inputs) (w : world) : run (list change * list change) :=
  fetchTools cfg w ;;
  call (ERmRF (template (work_dir cfg) ++ "/.cr-release-packages")%string)
       (io_rmRF w (template (work_dir cfg) ++ "/.cr-release-packages")%string) ;;
  call (EMkdirP (template (work_dir cfg) ++ "/.cr-release-packages")%string)
       (io_mkdirP w (template (work_dir cfg) ++ "/.cr-release-packages")%string) ;;
  call (ERmRF (template (work_dir cfg) ++ "/.cr-index")%string)
       (io_rmRF w (template (work_dir cfg) ++ "/.cr-index")%string) ;;
  call (EMkdirP (template (work_dir cfg) ++ "/.cr-index")%string)
       (io_mkdirP w (template (work_dir cfg) ++ "/.cr-index")%string) ;;
  changes <- getChangedCharts cfg w ;;
  neededTags <- getNeededTags w changes ;;
  neededBuilds <- getNeededBuilds w changes ;;
  ret (neededTags, neededBuilds).

(** The first and the second conditional of [main]. *)
Definition tag_stage (cfg : inputs) (w : world) (neededTags : list change)
  : run unit :=
  if nonempty neededTags then
    info ("Creating tags: " ++ tagList neededTags)%string ;;
    skipIfDryRun cfg (createTags w neededTags) ;;
    ret tt
  else info "No tags to create".

Definition build_stage (cfg : inputs) (w : world) (neededBuilds : list change)
  : run unit :=
  if nonempty neededBuilds then
    info ("Packaging charts: " ++ tagList neededBuilds)%string ;;
    skipIfDryRun cfg (packageCharts cfg w neededBuilds) ;;
    info ("Publishing charts: " ++ tagList neededBuilds)%string ;;
    skipIfDryRun cfg (publishCharts cfg w) ;;
    info "Generating chart repo index" ;;
    skipIfDryRun cfg (updateIndex cfg w) ;;
    ret tt
  else info "Nothing to build".

(** The report that ends a failed run. *)
Definition report (e : err) : list event :=
  [EError e; ESetFailed ("Error during action execution! " ++ e)%string].






(** Collaborators of the examples with one of them replaced. *)
Module Vary.

Definition hasTag (f : string -> result bool) (w : world) : world :=
  {| git_getLatestChanges := git_getLatestChanges w;
     git_hasTag := f;
     git_createTag := git_createTag w;
     octokit_request := octokit_request w;
     yaml_load := yaml_load w;
     Path_resolve := Path_resolve w;
     exec_exec := exec_exec w;
     io_rmRF := io_rmRF w;
     io_mkdirP := io_mkdirP w;
     tc_downloadTool := tc_downloadTool w;
     tc_extractTar := tc_extractTar w;
     tc_cacheFile := tc_cacheFile w |}.

Definition createTag (f : string -> result unit) (w : world) : world :=
  {| git_getLatestChanges := git_getLatestChanges w;
     git_hasTag := git_hasTag w;
     git_createTag := f;
     octokit_request := octokit_request w;
     yaml_load := yaml_load w;
     Path_resolve := Path_resolve w;
     exec_exec := exec_exec w;
     io_rmRF := io_rmRF w;
     io_mkdirP := io_mkdirP w;
     tc_downloadTool := tc_downloadTool w;
     tc_extractTar := tc_extractTar w;
     tc_cacheFile := tc_cacheFile w |}.

Definition exec (f : string -> list jsval -> result unit) (w : world) : world :=
  {| git_getLatestChanges := git_getLatestChanges w;
     git_hasTag := git_hasTag w;
     git_createTag := git_createTag w;
     octokit_request := octokit_request w;
     yaml_load := yaml_load w;
     Path_resolve := Path_resolve w;
     exec_exec := f;
     io_rmRF := io_rmRF w;
     io_mkdirP := io_mkdirP w;
     tc_downloadTool := tc_downloadTool w;
     tc_extractTar := tc_extractTar w;
     tc_cacheFile := tc_cacheFile w |}.

Definition mkdirP (f : string -> result unit) (w : world) : world :=
  {| git_getLatestChanges := git_getLatestChanges w;
     git_hasTag := git_hasTag w;
     git_createTag := git_createTag w;
     octokit_request := octokit_request w;
     yaml_load := yaml_load w;
     Path_resolve := Path_resolve w;
     exec_exec := exec_exec w;
     io_rmRF := io_rmRF w;
     io_mkdirP := f;
     tc_downloadTool := tc_downloadTool w;
     tc_extractTar := tc_extractTar w;
     tc_cacheFile := tc_cacheFile w |}.

Definition extractTar (f : string -> string -> result string) (w : world) : world :=
  {| git_getLatestChanges := git_getLatestChanges w;
     git_hasTag := git_hasTag w;
     git_createTag := git_createTag w;
     octokit_request := octokit_request w;
     yaml_load := yaml_load w;
     Path_resolve := Path_resolve w;
     exec_exec := exec_exec w;
     io_rmRF := io_rmRF w;
     io_mkdirP := io_mkdirP w;
     tc_downloadTool := tc_downloadTool w;
     tc_extractTar := f;
     tc_cacheFile := tc_cacheFile w |}.

(** The commit changed the manifests of [foo] and of [other], in this
    order; nothing is tagged or released yet. *)
Definition two_manifests (p : string) : option doc :=
  if (p =? "/home/runner/work/charts/charts/foo/Chart.yaml")%string
  then Some Demo.foo_120 else Some Demo.other_031.

Definition two_charts : world :=
  Demo.world_of ["charts/foo/Chart.yaml"; "README.md"; "charts/other/Chart.yaml"]
                two_manifests [] [].

(** [git tag] fails on the second tag. *)
Definition tag_rejected : world :=
  createTag (fun t => if (t =? "other-0.3.1")%string
                      then Throw "Error: tag already exists" else Ok tt)
            two_charts.

(** [cr package] fails on the second chart. *)
Definition package_fails : world :=
  exec (fun _ args =>
          match args with
          | [JStr "package"; JStr "charts/other"] => Throw "Error: cr exited with code 1"
          | _ => Ok tt
          end)
       two_charts.

(** [cr upload] fails. *)
Definition upload_fails : world :=
  exec (fun _ args =>
          match args with
          | JStr "upload" :: _ => Throw "Error: cr exited with code 1"
          | _ => Ok tt
          end)
       two_charts.

(** [git.hasTag] fails. *)
Definition no_git : world :=
  hasTag (fun _ => Throw "fatal: not a git repository") two_charts.

(** The archive of the tool cannot be unpacked. *)
Definition bad_archive : world :=
  extractTar (fun _ _ => Throw "Error: tar exited with code 2") two_charts.

(** The index directory cannot be created. *)
Definition read_only : world :=
  mkdirP (fun p => if (p =? "/home/runner/work/charts/.cr-index")%string
                   then Throw "EACCES: permission denied" else Ok tt)
         two_charts.

(** The manifest of [foo] is an empty file. *)
Definition empty_manifest : world :=
  Demo.world_of ["charts/foo/Chart.yaml"] (fun _ => None) [] [].

(** The chart directory is configured as [deploy/charts]. *)
Definition nested_root : inputs :=
  {| GITHUB_WORKSPACE := Demo.workspace;
     GITHUB_SHA := JStr "4f2a9c1";
     input_chart_repo_url := "https://example.github.io/charts";
     input_chart_dir := "deploy/charts";
     input_dry_run := false;
     input_chart_releaser_version := "";
     owner := "example";
     repo := "charts" |}.

Definition foo_other : list change := [Demo.foo_change; Demo.other_change].



End Vary.

(** ** The run monad *)

Section RunLemmas.

Context {A B : Type}.

Lemma bind_ok (m : run A) (f : A -> run B) (a : A) :
  snd m = Ok a -> bind m f = (fst m ++ fst (f a), snd (f a)).
Proof.
  destruct m as [t r]; simpl; intros ->.
  now destruct (f a).
Qed.

Lemma bind_throw (m : run A) (f : A -> run B) (e : err) :
  snd m = Throw e -> bind m f = (fst m, Throw e).
Proof.
  destruct m as [t r]; simpl; now intros ->.
Qed.

Lemma bind_pair (t : list event) (a : A) (f : A -> run B) :
  bind (t, Ok a) f = (t ++ fst (f a), snd (f a)).
Proof. now apply bind_ok. Qed.

Lemma bind_throws (m : run A) (f : A -> run B) :
  (exists e, snd m = Throw e) -> exists e, snd (bind m f) = Throw e.
Proof.
  intros [e He]. exists e. now rewrite (bind_throw m f e He).
Qed.

End RunLemmas.

Lemma bind_call {A B} (e : event) (a : A) (f : A -> run B) :
  bind (call e (Ok a)) f = (e :: fst (f a), snd (f a)).
Proof. unfold call. now rewrite bind_pair. Qed.

(** [only P m]: every call [m] makes satisfies [P]. *)
Definition only {A} (P : event -> bool) (m : run A) : Prop :=
  Forall (fun e => P e = true) (fst m).

Section Only.

Variable P : event -> bool.

Lemma only_ret {A} (a : A) : only P (ret a).
Proof. constructor. Qed.

Lemma only_throw {A} (e : err) : only P (@throw A e).
Proof. constructor. Qed.

Lemma only_call {A} (e : event) (r : result A) :
  P e = true -> only P (call e r).
Proof. intros H. now repeat constructor. Qed.

Lemma only_bind {A B} (m : run A) (f : A -> run B) :
  only P m -> (forall a, snd m = Ok a -> only P (f a)) -> only P (bind m f).
Proof.
  unfold only. destruct m as [t [a | e]]; simpl; intros Hm Hf; [| exact Hm].
  specialize (Hf a eq_refl). destruct (f a) as [t' r]; simpl in *.
  apply Forall_app; now split.
Qed.

Lemma only_try_catch {A} (m : run A) (h : err -> run A) :
  only P m -> (forall e, snd m = Throw e -> only P (h e)) ->
  only P (try_catch m h).
Proof.
  unfold only. destruct m as [t [a | e]]; simpl; intros Hm Hh; [exact Hm |].
  specialize (Hh e eq_refl). destruct (h e) as [t' r]; simpl in *.
  apply Forall_app; now split.
Qed.

Lemma only_foldM {A B} (body : B -> A -> run B) (l : list A) :
  (forall acc x, In x l -> only P (body acc x)) ->
  forall acc, only P (foldM body l acc).
Proof.
  induction l as [| x l IH]; simpl; intros Hbody acc.
  - apply only_ret.
  - apply only_bind; [apply Hbody; now left |].
    intros acc' _. apply IH. intros; apply Hbody; now right.
Qed.

End Only.

Lemma filter_none {A} (f : A -> bool) (l : list A) :
  Forall (fun x => negb (f x) = true) l -> filter f l = [].
Proof.
  induction 1 as [| x l Hx _ IH]; simpl; [reflexivity |].
  apply negb_true_iff in Hx. now rewrite Hx.
Qed.

(** A loop whose body throws at some element, whatever the accumulator,
    throws. *)
Lemma foldM_throws {A B} (body : B -> A -> run B) (l : list A) (x : A) :
  In x l -> (forall acc, exists e, snd (body acc x) = Throw e) ->
  forall acc, exists e, snd (foldM body l acc) = Throw e.
Proof.
  intros Hin Hx. induction l as [| y l IH]; [easy |]. intros acc; simpl.
  destruct (body acc y) as [t [acc' | e]] eqn:Hy.
  - destruct Hin as [-> | Hin].
    + destruct (Hx acc) as [e He]. rewrite Hy in He. discriminate.
    + destruct (IH Hin acc') as [e He]. exists e.
      now rewrite bind_pair.
  - exists e. reflexivity.
Qed.

Lemma existsb_none {A} (f : A -> bool) (l : list A) :
  Forall (fun x => negb (f x) = true) l -> existsb f l = false.
Proof.
  induction 1 as [| x l Hx _ IH]; simpl; [reflexivity |].
  apply negb_true_iff in Hx. now rewrite Hx.
Qed.

Ltac only_step :=
  match goal with
  | |- only _ (ret _) => apply only_ret
  | |- only _ (throw _) => apply only_throw
  | |- only _ (call _ _) => apply only_call; solve [reflexivity | auto]
  | |- only _ (info _) => apply only_call; solve [reflexivity | auto]
  | |- only _ (debug _) => apply only_call; solve [reflexivity | auto]
  | |- only _ (error _) => apply only_call; solve [reflexivity | auto]
  | |- only _ (setFailed _) => apply only_call; solve [reflexivity | auto]
  | |- only _ (bind _ _) => apply only_bind; [| intros ? _]
  | |- only _ (try_catch _ _) => apply only_try_catch; [| intros ? _]
  | |- only _ (foldM _ _ _) => apply only_foldM; intros; cbv beta
  | |- only _ (for_of _ _) => apply only_foldM; intros; cbv beta
  | |- only _ (if ?b then _ else _) => destruct b
  | |- only _ (match ?d with _ => _ end) => destruct d
  end.

Ltac only_tac := repeat only_step.

(** ** The reconcilers *)

Section Reconcilers.

Variable w : world.

Lemma releaseExists_run (tag : string) :
  releaseExists w tag = ([EReleaseRequest tag], Ok (released w tag)).
Proof.
  unfold releaseExists, released.
  now destruct (octokit_request w tag).
Qed.

(** The loop of [getNeededTags], from any accumulator, when the oracle
    answers [tagExists] on the records. *)
Lemma getNeededTags_loop (tagExists : string -> bool) (changes : list change) :
  (forall c, In c changes ->
             git_hasTag w (versionTag c) = Ok (tagExists (versionTag c))) ->
  forall acc,
    foldM (fun tags change =>
             let tag := versionTag change in
             b <- call (EHasTag tag) (git_hasTag w tag) ;;
             if b : bool then
               debug ("Skipping existing tag " ++ tag)%string ;; ret tags
             else ret (tags ++ [change]))
          changes acc
    = (tag_log tagExists changes,
       Ok (acc ++ filter (fun c => negb (tagExists (versionTag c))) changes)).
Proof.
  induction changes as [| c l IH]; intros H acc.
  - simpl. now rewrite app_nil_r.
  - cbn [foldM tag_log flat_map filter].
    rewrite (H c (or_introl eq_refl)), bind_call.
    destruct (tagExists (versionTag c)); unfold debug, ret;
      rewrite ?bind_call; cbn [negb fst snd];
      rewrite bind_pair, IH by (intros; apply H; now right); cbn [fst snd].
    + reflexivity.
    + now rewrite <- app_assoc.
Qed.

Lemma getNeededTags_run (tagExists : string -> bool) (changes : list change) :
  (forall c, In c changes ->
             git_hasTag w (versionTag c) = Ok (tagExists (versionTag c))) ->
  getNeededTags w changes
  = (tag_log tagExists changes,
     Ok (filter (fun c => negb (tagExists (versionTag c))) changes)).
Proof.
  intros H. unfold getNeededTags. now rewrite (getNeededTags_loop tagExists changes H).
Qed.

Lemma getNeededBuilds_loop (changes : list change) :
  forall acc,
    foldM (fun releases change =>
             let tag := versionTag change in
             b <- releaseExists w tag ;;
             if b : bool then
               debug ("Skipping existing release " ++ tag)%string ;; ret releases
             else ret (releases ++ [change]))
          changes acc
    = (release_log w changes,
       Ok (acc ++ filter (fun c => negb (released w (versionTag c))) changes)).
Proof.
  induction changes as [| c l IH]; intros acc.
  - simpl. now rewrite app_nil_r.
  - cbn [foldM release_log flat_map filter].
    rewrite releaseExists_run, bind_pair.
    destruct (released w (versionTag c)); unfold debug, ret;
      rewrite ?bind_call; cbn [negb fst snd];
      rewrite bind_pair, IH; cbn [fst snd].
    + now rewrite <- app_assoc.
    + rewrite app_nil_r. now rewrite <- (app_assoc acc).
Qed.

Lemma getNeededBuilds_run (changes : list change) :
  getNeededBuilds w changes
  = (release_log w changes,
     Ok (filter (fun c => negb (released w (versionTag c))) changes)).
Proof. unfold getNeededBuilds. now rewrite getNeededBuilds_loop. Qed.

Lemma tag_log_quiet (tagExists : string -> bool) (changes : list change) :
  filter is_mutation (tag_log tagExists changes) = [].
Proof.
  induction changes as [| c l IH]; [reflexivity |]. cbn [tag_log flat_map].
  rewrite filter_app. fold (tag_log tagExists l). rewrite IH.
  now destruct (tagExists (versionTag c)).
Qed.

End Reconcilers.


(** ** The sequencing of [main] *)

Section Main.

Variable cfg : inputs.
Variable w : world.

Lemma main_eq :
  main cfg w =
  (fetchTools cfg w ;;
   call (ERmRF (template (work_dir cfg) ++ "/.cr-release-packages")%string)
        (io_rmRF w (template (work_dir cfg) ++ "/.cr-release-packages")%string) ;;
   call (EMkdirP (template (work_dir cfg) ++ "/.cr-release-packages")%string)
        (io_mkdirP w (template (work_dir cfg) ++ "/.cr-release-packages")%string) ;;
   call (ERmRF (template (work_dir cfg) ++ "/.cr-index")%string)
        (io_rmRF w (template (work_dir cfg) ++ "/.cr-index")%string) ;;
   call (EMkdirP (template (work_dir cfg) ++ "/.cr-index")%string)
        (io_mkdirP w (template (work_dir cfg) ++ "/.cr-index")%string) ;;
   changes <- getChangedCharts cfg w ;;
   neededTags <- getNeededTags w changes ;;
   neededBuilds <- getNeededBuilds w changes ;;
   release_steps cfg w neededTags neededBuilds).
Proof. reflexivity. Qed.

Lemma release_steps_dry_run (neededTags neededBuilds : list change) :
  dry_run cfg = true ->
  release_steps cfg w neededTags neededBuilds
  = (dry_run_log neededTags neededBuilds, Ok tt).
Proof.
  intros Hdry. unfold release_steps, skipIfDryRun, dry_run_log.
  rewrite Hdry. now destruct neededTags, neededBuilds.
Qed.

(** Up to the reconcilers [main] makes no mutating call and never calls
    [setFailed]: a property of events that holds of every such call holds
    of the whole of [main] once it holds of the closing steps. *)
Lemma main_only (P : event -> bool) :
  (forall e, is_mutation e = false -> is_setFailed e = false -> P e = true) ->
  (forall changes neededTags neededBuilds,
      snd (getChangedCharts cfg w) = Ok changes ->
      snd (getNeededTags w changes) = Ok neededTags ->
      snd (getNeededBuilds w changes) = Ok neededBuilds ->
      only P (release_steps cfg w neededTags neededBuilds)) ->
  only P (main cfg w).
Proof.
  intros HP Hsteps. rewrite main_eq.
  apply only_bind; [unfold fetchTools; only_tac | intros _ _].
  do 4 (apply only_bind; [only_tac | intros _ _]).
  apply only_bind;
    [unfold getChangedCharts, changed_step, loadChart; only_tac
    | intros changes Hc].
  apply only_bind; [unfold getNeededTags; only_tac | intros nt Hnt].
  apply only_bind;
    [unfold getNeededBuilds, releaseExists; only_tac | intros nb Hnb].
  now apply Hsteps with changes.
Qed.

Lemma action_only (P : event -> bool) :
  (forall msg, P (EInfo msg) = true) ->
  (forall e, P (EError e) = true) ->
  (forall msg, P (ESetFailed msg) = true) ->
  only P (main cfg w) -> only P (action cfg w).
Proof.
  intros Hinfo Herror Hfail Hmain. unfold action. only_tac; auto.
Qed.

Lemma action_quiet : only quiet (main cfg w) -> only quiet (action cfg w).
Proof. now apply action_only. Qed.

Lemma only_quiet_no_mutation {A} (m : run A) :
  only quiet m -> filter is_mutation (fst m) = [].
Proof. apply filter_none. Qed.

(** A run in which nothing up to the reconcilers fails. *)
Lemma main_run (tf tx tn tb : list event) (changes nt nb : list change) :
  fetchTools cfg w = (tf, Ok tt) ->
  io_rmRF w (template (work_dir cfg) ++ "/.cr-release-packages")%string = Ok tt ->
  io_mkdirP w (template (work_dir cfg) ++ "/.cr-release-packages")%string = Ok tt ->
  io_rmRF w (template (work_dir cfg) ++ "/.cr-index")%string = Ok tt ->
  io_mkdirP w (template (work_dir cfg) ++ "/.cr-index")%string = Ok tt ->
  getChangedCharts cfg w = (tx, Ok changes) ->
  getNeededTags w changes = (tn, Ok nt) ->
  getNeededBuilds w changes = (tb, Ok nb) ->
  main cfg w
  = (tf ++ prepare_log cfg ++ tx ++ tn ++ tb ++ fst (release_steps cfg w nt nb),
     snd (release_steps cfg w nt nb)).
Proof.
  intros Hf Hr1 Hm1 Hr2 Hm2 Hx Hn Hb. rewrite main_eq.
  rewrite Hf, Hr1, Hm1, Hr2, Hm2, bind_pair, !bind_call. cbn [fst snd].
  rewrite Hx, bind_pair, Hn, bind_pair, Hb, bind_pair. cbn [fst snd].
  reflexivity.
Qed.

Lemma action_completes (t : list event) :
  falsy (work_dir cfg) = false ->
  main cfg w = (t, Ok tt) ->
  action cfg w = (t ++ [EInfo "Action Completed Successfully"], Ok tt).
Proof.
  intros Hw Hmain. unfold action. now rewrite Hw, Hmain.
Qed.

Lemma action_reports (t : list event) (e : err) :
  main cfg w = (t, Throw e) ->
  action cfg w
  = ((if falsy (work_dir cfg)
      then [ESetFailed "Unable to locate workspace!"] else [])
     ++ t
     ++ [EError e; ESetFailed ("Error during action execution! " ++ e)%string],
     Ok tt).
Proof.
  intros Hmain. unfold action. rewrite Hmain.
  now destruct (falsy (work_dir cfg)).
Qed.

Lemma release_steps_never_setFailed (nt nb : list change) :
  only not_setFailed (release_steps cfg w nt nb).
Proof.
  unfold release_steps, skipIfDryRun, createTags, packageCharts,
    publishCharts, updateIndex, cr.
  only_tac.
Qed.

Lemma main_never_setFailed : only not_setFailed (main cfg w).
Proof.
  apply main_only.
  - intros e _ He. unfold not_setFailed. now rewrite He.
  - intros. apply release_steps_never_setFailed.
Qed.

Lemma main_not_failed : failed (fst (main cfg w)) = false.
Proof. apply existsb_none, main_never_setFailed. Qed.

Lemma dry_run_no_mutation :
  dry_run cfg = true -> filter is_mutation (fst (action cfg w)) = [].
Proof.
  intros Hdry. apply only_quiet_no_mutation, action_quiet, main_only.
  - intros e He _. unfold quiet. now rewrite He.
  - intros _ nt nb _ _ _. unfold only.
    rewrite (release_steps_dry_run nt nb Hdry).
    unfold dry_run_log. destruct nt, nb; repeat constructor.
Qed.

Lemma bind_throws_after {A B} (m : run A) (f : A -> run B) :
  (forall a, snd m = Ok a -> exists e, snd (f a) = Throw e) ->
  exists e, snd (bind m f) = Throw e.
Proof.
  destruct m as [t [a | e]]; intros H.
  - destruct (H a eq_refl) as [e He]. exists e. now rewrite bind_pair.
  - now exists e.
Qed.

(** When extraction throws, [main] throws, having made upstream calls
    only. *)
Lemma main_stops_at_extraction :
  (exists e, snd (getChangedCharts cfg w) = Throw e) ->
  only is_upstream (main cfg w) /\ exists e, snd (main cfg w) = Throw e.
Proof.
  intros [e He]. rewrite main_eq. split.
  - apply only_bind; [unfold fetchTools; only_tac | intros _ _].
    do 4 (apply only_bind; [only_tac | intros _ _]).
    apply only_bind;
      [unfold getChangedCharts, changed_step, loadChart; only_tac
      | intros changes Hc; congruence].
  - do 5 (apply bind_throws_after; intros _ _).
    apply bind_throws. now exists e.
Qed.

(** A manifest change whose read or parse throws makes extraction throw. *)
Lemma getChangedCharts_throws (paths : list string) (p : string) (e : err) :
  git_getLatestChanges w = Ok paths ->
  In p paths ->
  isManifestChange cfg p = true ->
  yaml_load w (Path_resolve w (template (work_dir cfg) ++ "/" ++ p)%string)
  = Throw e ->
  exists e', snd (getChangedCharts cfg w) = Throw e'.
Proof.
  intros Hlatest Hin Hp Hload. unfold getChangedCharts.
  rewrite Hlatest, bind_call. cbn [snd].
  apply (foldM_throws (changed_step cfg w) paths p Hin).
  intros acc. exists e. unfold changed_step, loadChart.
  apply andb_prop in Hp as [Hpre Hrel]. now rewrite Hpre, Hrel, Hload.
Qed.

End Main.

(** C2. [getNeededTags] is an order-preserving filter without side
    effects: when the tag oracle answers [tagExists] on the records of
    the change set, it returns exactly the records whose tag
    ["{chart}-{version}"] is reported absent, in input order, and it only
    queries and writes debug lines.  A record whose tag exists is left
    out, while [getNeededBuilds] on the same change set keeps it when the
    release query does not find its release. *)
Theorem getNeededTags_is_filter (w : world) (tagExists : string -> bool)
    (changes : list change) :
  (forall c, In c changes ->
             git_hasTag w (versionTag c) = Ok (tagExists (versionTag c))) ->
  getNeededTags w changes
  = (tag_log tagExists changes,
     Ok (filter (fun c => negb (tagExists (versionTag c))) changes))
  /\ filter is_mutation (fst (getNeededTags w changes)) = []
  /\ (forall c, In c changes ->
        tagExists (versionTag c) = true ->
        released w (versionTag c) = false ->
        (forall needed, snd (getNeededTags w changes) = Ok needed -> ~ In c needed)
        /\ (exists builds, snd (getNeededBuilds w changes) = Ok builds
                           /\ In c builds)).
Proof.
  intros H. rewrite (getNeededTags_run w tagExists changes H).
  split; [reflexivity |]. split; [apply tag_log_quiet |].
  intros c Hin Htag Hrel. split.
  - intros needed [= <-]. rewrite filter_In, Htag. now intros [_ ?].
  - rewrite getNeededBuilds_run. eexists; split; [reflexivity |].
    apply filter_In. now rewrite Hrel.
Qed.

Lemma getNeededTags_is_filter_witness :
  (forall c, In c [Demo.foo_change] ->
     git_hasTag Demo.tagged_unreleased (versionTag c)
     = Ok (Demo.listed ["foo-1.2.0"] (versionTag c)))
  /\ snd (getNeededTags Demo.tagged_unreleased [Demo.foo_change]) = Ok []
  /\ snd (getNeededBuilds Demo.tagged_unreleased [Demo.foo_change])
     = Ok [Demo.foo_change].
Proof.
  assert (H : forall c, In c [Demo.foo_change] ->
     git_hasTag Demo.tagged_unreleased (versionTag c)
     = Ok (Demo.listed ["foo-1.2.0"] (versionTag c)))
    by (intros c _; reflexivity).
  split; [exact H |].
  destruct (getNeededTags_is_filter Demo.tagged_unreleased
              (Demo.listed ["foo-1.2.0"]) [Demo.foo_change] H)
    as (Hrun & _ & _).
  split; [now rewrite Hrun | reflexivity].
Defined.

(** C3. An error of the release query counts as an absent release: if
    the query for a record's tag throws, whatever the error,
    [releaseExists] returns [false] without throwing, and
    [getNeededBuilds] returns normally with that record among the needed
    builds. *)
Theorem release_error_means_absent (w : world) (changes : list change)
    (c : change) (e : err) :
  In c changes ->
  octokit_request w (versionTag c) = Throw e ->
  releaseExists w (versionTag c) = ([EReleaseRequest (versionTag c)], Ok false)
  /\ exists builds, snd (getNeededBuilds w changes) = Ok builds /\ In c builds.
Proof.
  intros Hin He.
  assert (Hrel : released w (versionTag c) = false)
    by (unfold released; now rewrite He).
  split.
  - now rewrite releaseExists_run, Hrel.
  - rewrite getNeededBuilds_run. eexists; split; [reflexivity |].
    apply filter_In. now rewrite Hrel.
Qed.

Lemma release_error_means_absent_witness :
  octokit_request Demo.release_api_down (versionTag Demo.foo_change)
  = Throw "HttpError: Bad Gateway"
  /\ releaseExists Demo.release_api_down "foo-1.2.0"
     = ([EReleaseRequest "foo-1.2.0"], Ok false)
  /\ exists builds,
       snd (getNeededBuilds Demo.release_api_down [Demo.foo_change]) = Ok builds
       /\ In Demo.foo_change builds.
Proof.
  split; [reflexivity |].
  apply (release_error_means_absent Demo.release_api_down [Demo.foo_change]
           Demo.foo_change "HttpError: Bad Gateway").
  - now left.
  - reflexivity.
Defined.

(** C1. A second run after a complete one is idle: when, for every
    record of the extracted change set, the tag oracle reports its tag
    and the release query finds its release, [getNeededTags] and
    [getNeededBuilds] both return the empty list and the whole action
    makes no tag creation and no [cr] invocation (package, upload,
    index). *)
Theorem second_run_is_idle (cfg : inputs) (w : world) (changes : list change) :
  snd (getChangedCharts cfg w) = Ok changes ->
  (forall c, In c changes -> git_hasTag w (versionTag c) = Ok true) ->
  (forall c, In c changes -> released w (versionTag c) = true) ->
  snd (getNeededTags w changes) = Ok []
  /\ snd (getNeededBuilds w changes) = Ok []
  /\ filter is_mutation (fst (action cfg w)) = [].
Proof.
  intros Hx Htags Hrels.
  assert (Hnt : snd (getNeededTags w changes) = Ok []).
  { rewrite (getNeededTags_run w (fun _ => true) changes Htags). cbn [snd].
    f_equal. apply filter_none, Forall_forall. reflexivity. }
  assert (Hnb : snd (getNeededBuilds w changes) = Ok []).
  { rewrite getNeededBuilds_run. cbn [snd]. f_equal.
    apply filter_none, Forall_forall. intros c Hc.
    now rewrite (Hrels c Hc). }
  repeat split; [exact Hnt | exact Hnb |].
  apply only_quiet_no_mutation, action_quiet, main_only.
  - intros e He _. unfold quiet. now rewrite He.
  - intros changes' nt nb Hx' Hnt' Hnb'.
    assert (changes' = changes) by congruence. subst changes'.
    assert (nt = []) by congruence. assert (nb = []) by congruence. subst.
    repeat constructor.
Qed.

Lemma second_run_is_idle_witness :
  snd (getChangedCharts (Demo.cfg Demo.workspace false) Demo.all_done)
  = Ok [Demo.foo_change]
  /\ snd (getNeededTags Demo.all_done [Demo.foo_change]) = Ok []
  /\ snd (getNeededBuilds Demo.all_done [Demo.foo_change]) = Ok []
  /\ filter is_mutation
       (fst (action (Demo.cfg Demo.workspace false) Demo.all_done)) = [].
Proof.
  split; [reflexivity |].
  apply (second_run_is_idle (Demo.cfg Demo.workspace false) Demo.all_done
           [Demo.foo_change]).
  - reflexivity.
  - intros c [<- | []]. reflexivity.
  - intros c [<- | []]. reflexivity.
Defined.

(** C6. Dry run: with the dry-run flag set, in a run where the workspace
    is set and nothing fails up to the reconcilers, whatever the needed
    tags and builds are, the action makes the tool fetch, the four
    Prepare calls, the extraction and the two reconciliations, then only
    logs what it would do ("Creating tags", "Packaging charts",
    "Publishing charts", "Generating chart repo index", each followed by
    "Skipping due to dry_run") and completes; it makes no tag creation
    and no [cr] invocation, and it is not reported as failed. *)
Theorem dry_run_gating (cfg : inputs) (w : world)
    (tf tx tn tb : list event) (changes nt nb : list change) :
  dry_run cfg = true ->
  falsy (work_dir cfg) = false ->
  fetchTools cfg w = (tf, Ok tt) ->
  io_rmRF w (template (work_dir cfg) ++ "/.cr-release-packages")%string = Ok tt ->
  io_mkdirP w (template (work_dir cfg) ++ "/.cr-release-packages")%string = Ok tt ->
  io_rmRF w (template (work_dir cfg) ++ "/.cr-index")%string = Ok tt ->
  io_mkdirP w (template (work_dir cfg) ++ "/.cr-index")%string = Ok tt ->
  getChangedCharts cfg w = (tx, Ok changes) ->
  getNeededTags w changes = (tn, Ok nt) ->
  getNeededBuilds w changes = (tb, Ok nb) ->
  action cfg w
  = (tf ++ prepare_log cfg ++ tx ++ tn ++ tb ++ dry_run_log nt nb
        ++ [EInfo "Action Completed Successfully"],
     Ok tt)
  /\ filter is_mutation (fst (action cfg w)) = []
  /\ failed (fst (action cfg w)) = false.
Proof.
  intros Hdry Hw Hf Hr1 Hm1 Hr2 Hm2 Hx Hn Hb.
  pose proof (main_run cfg w tf tx tn tb changes nt nb
                Hf Hr1 Hm1 Hr2 Hm2 Hx Hn Hb) as Hmain.
  rewrite (release_steps_dry_run cfg w nt nb Hdry) in Hmain. cbn [fst snd] in Hmain.
  pose proof (action_completes cfg w _ Hw Hmain) as Hact.
  split; [| split].
  - rewrite Hact. f_equal. now rewrite <- !app_assoc.
  - now apply dry_run_no_mutation.
  - rewrite Hact. cbn [fst]. unfold failed. rewrite existsb_app.
    pose proof (main_not_failed cfg w) as Hnf. rewrite Hmain in Hnf.
    cbn [fst] in Hnf. unfold failed in Hnf. now rewrite Hnf.
Qed.

(** C7. A malformed manifest is fatal: if the commit changed a path that
    passes the extractor's filter and reading or parsing the manifest
    there throws, then [getChangedCharts] throws, and the action ends by
    reporting the error through [core.error] and [core.setFailed]; before
    that report it has made only upstream calls (workspace check, tool
    fetch, Prepare, extraction): no reconciler query, no tag creation, no
    [cr] invocation and no completion message. *)
Theorem malformed_manifest_is_fatal (cfg : inputs) (w : world)
    (paths : list string) (p : string) (e : err) :
  git_getLatestChanges w = Ok paths ->
  In p paths ->
  isManifestChange cfg p = true ->
  yaml_load w (Path_resolve w (template (work_dir cfg) ++ "/" ++ p)%string)
  = Throw e ->
  (exists e', snd (getChangedCharts cfg w) = Throw e')
  /\ (exists t e',
        action cfg w
        = (t ++ [EError e';
                 ESetFailed ("Error during action execution! " ++ e')%string],
           Ok tt)
        /\ Forall (fun ev => is_upstream ev = true) t)
  /\ failed (fst (action cfg w)) = true.
Proof.
  intros Hlatest Hin Hp Hload.
  pose proof (getChangedCharts_throws cfg w paths p e Hlatest Hin Hp Hload) as Hx.
  destruct (main_stops_at_extraction cfg w Hx) as [Hup [e' He']].
  pose proof (action_reports cfg w (fst (main cfg w)) e') as Hact.
  rewrite <- He', <- surjective_pairing in Hact. specialize (Hact eq_refl).
  split; [exact Hx |]. split.
  - exists ((if falsy (work_dir cfg)
             then [ESetFailed "Unable to locate workspace!"] else [])
            ++ fst (main cfg w)), e'.
    split; [now rewrite Hact, <- app_assoc |].
    apply Forall_app. split; [| exact Hup].
    destruct (falsy (work_dir cfg)); repeat constructor.
  - rewrite Hact. cbn [fst]. unfold failed. rewrite !existsb_app. cbn.
    now rewrite !orb_true_r.
Qed.

Lemma dry_run_gating_witness :
  action (Demo.cfg Demo.workspace true) Demo.fresh
  = ([EDownloadTool
        "https://github.com/helm/chart-releaser/releases/download/v3.8.0/chart-releaser_3.8.0_linux_amd64.tar.gz";
      EExtractTar "/tmp/cr.tar.gz" "tools/chart-releaser";
      ECacheFile "/tmp/cr/cr" "cr" "cr" "3.8.0";
      EAddPath "/opt/hostedtoolcache/cr";
      ERmRF "/home/runner/work/charts/.cr-release-packages";
      EMkdirP "/home/runner/work/charts/.cr-release-packages";
      ERmRF "/home/runner/work/charts/.cr-index";
      EMkdirP "/home/runner/work/charts/.cr-index";
      EGetLatestChanges;
      ELoadChart "/home/runner/work/charts/charts/foo/Chart.yaml";
      EHasTag "foo-1.2.0";
      EReleaseRequest "foo-1.2.0";
      EInfo "Creating tags: foo-1.2.0";
      EInfo "Skipping due to dry_run";
      EInfo "Packaging charts: foo-1.2.0";
      EInfo "Skipping due to dry_run";
      EInfo "Publishing charts: foo-1.2.0";
      EInfo "Skipping due to dry_run";
      EInfo "Generating chart repo index";
      EInfo "Skipping due to dry_run";
      EInfo "Action Completed Successfully"],
     Ok tt)
  /\ filter is_mutation (fst (action (Demo.cfg Demo.workspace true) Demo.fresh)) = []
  /\ failed (fst (action (Demo.cfg Demo.workspace true) Demo.fresh)) = false.
Proof.
  apply (dry_run_gating (Demo.cfg Demo.workspace true) Demo.fresh
           (fst (fetchTools (Demo.cfg Demo.workspace true) Demo.fresh))
           (fst (getChangedCharts (Demo.cfg Demo.workspace true) Demo.fresh))
           (fst (getNeededTags Demo.fresh [Demo.foo_change]))
           (fst (getNeededBuilds Demo.fresh [Demo.foo_change]))
           [Demo.foo_change] [Demo.foo_change] [Demo.foo_change]);
    reflexivity.
Defined.

Lemma malformed_manifest_is_fatal_witness :
  isManifestChange (Demo.cfg Demo.workspace false) "charts/foo/Chart.yaml" = true
  /\ (exists e', snd (getChangedCharts (Demo.cfg Demo.workspace false)
                                       Demo.malformed) = Throw e')
  /\ (exists t e',
        action (Demo.cfg Demo.workspace false) Demo.malformed
        = (t ++ [EError e';
                 ESetFailed ("Error during action execution! " ++ e')%string],
           Ok tt)
        /\ Forall (fun ev => is_upstream ev = true) t)
  /\ failed (fst (action (Demo.cfg Demo.workspace false) Demo.malformed)) = true.
Proof.
  split; [reflexivity |].
  apply (malformed_manifest_is_fatal (Demo.cfg Demo.workspace false)
           Demo.malformed ["charts/foo/Chart.yaml"] "charts/foo/Chart.yaml"
           "YAMLException: bad indentation of a mapping entry").
  - reflexivity.
  - now left.
  - reflexivity.
  - reflexivity.
Defined.

(** ** Extraction and packaging *)

Section Extraction.

Variable cfg : inputs.
Variable w : world.

Lemma changed_step_skip (changed : list change) (p : string) :
  isManifestChange cfg p = false -> changed_step cfg w changed p = ret changed.
Proof.
  unfold isManifestChange, changed_step. intros H.
  destruct (startsWith p (chart_dir cfg)); [| reflexivity].
  cbn [andb] in H. now rewrite H.
Qed.

Lemma changed_step_load (changed : list change) (p : string) :
  isManifestChange cfg p = true ->
  changed_step cfg w changed p
  = (d <- loadChart w (manifest_path cfg w p) ;;
     match d with
     | None => throw "TypeError: Cannot destructure property 'name'"
     | Some m => ret (changed ++ [record_of m])
     end).
Proof.
  unfold isManifestChange, changed_step. intros H.
  apply andb_prop in H as [Hpre Hrel]. now rewrite Hpre, Hrel.
Qed.

(** Extraction when every manifest read succeeds: one read and one
    record per path that passes the filter, in the order of the paths. *)
Lemma changed_loop (manifest : string -> doc) (paths : list string) :
  (forall p, In p paths -> isManifestChange cfg p = true ->
             yaml_load w (manifest_path cfg w p) = Ok (Some (manifest p))) ->
  forall acc,
    foldM (changed_step cfg w) paths acc
    = (map (fun p => ELoadChart (manifest_path cfg w p))
           (filter (isManifestChange cfg) paths),
       Ok (acc ++ map (fun p => record_of (manifest p))
                      (filter (isManifestChange cfg) paths))).
Proof.
  induction paths as [| p l IH]; intros H acc.
  - simpl. now rewrite app_nil_r.
  - cbn [foldM filter].
    destruct (isManifestChange cfg p) eqn:Hp.
    + rewrite (changed_step_load acc p Hp). unfold loadChart.
      rewrite (H p (or_introl eq_refl) Hp), bind_call. cbn [fst snd ret].
      rewrite bind_pair, IH by (intros; apply H; [now right | assumption]).
      cbn [fst snd map]. now rewrite <- app_assoc.
    + rewrite (changed_step_skip acc p Hp). unfold ret. rewrite bind_pair.
      now rewrite IH by (intros; apply H; [now right | assumption]).
Qed.

Lemma getChangedCharts_run (manifest : string -> doc) (paths : list string) :
  git_getLatestChanges w = Ok paths ->
  (forall p, In p paths -> isManifestChange cfg p = true ->
             yaml_load w (manifest_path cfg w p) = Ok (Some (manifest p))) ->
  getChangedCharts cfg w
  = (EGetLatestChanges ::
       map (fun p => ELoadChart (manifest_path cfg w p))
           (filter (isManifestChange cfg) paths),
     Ok (map (fun p => record_of (manifest p))
             (filter (isManifestChange cfg) paths))).
Proof.
  intros Hlatest H. unfold getChangedCharts.
  now rewrite Hlatest, bind_call, (changed_loop manifest paths H).
Qed.

(** [packageCharts] calls [cr package] on the records in order and stops
    at the first call that fails. *)
Lemma packageCharts_prefix (builds : list change) :
  exists n, fst (packageCharts cfg w builds)
            = map (package_call cfg) (firstn n builds).
Proof.
  unfold packageCharts, for_of, cr.
  induction builds as [| c l [n IH]].
  - now exists 0.
  - cbn [foldM].
    destruct (exec_exec w "cr"
                [JStr "package";
                 JStr (chart_dir cfg ++ "/" ++ template (chart c))%string])
      as [[] | e].
    + exists (S n). rewrite bind_call. cbn [fst firstn map]. now rewrite IH.
    + now exists 1.
Qed.

Lemma packageCharts_run (builds : list change) :
  (forall c, In c builds ->
     exec_exec w "cr"
       [JStr "package"; JStr (chart_dir cfg ++ "/" ++ template (chart c))%string]
     = Ok tt) ->
  packageCharts cfg w builds = (map (package_call cfg) builds, Ok tt).
Proof.
  unfold packageCharts, for_of, cr.
  induction builds as [| c l IH]; intros H; [reflexivity |].
  cbn [foldM]. rewrite (H c (or_introl eq_refl)), bind_call.
  now rewrite IH by (intros; apply H; now right).
Qed.

End Extraction.

(** ** Records that share a tag *)

Section SharedTags.

Variable w : world.

Lemma getNeededTags_by_tag (l1 : list change) :
  forall l2 acc1 acc2,
    map versionTag l1 = map versionTag l2 ->
    map versionTag acc1 = map versionTag acc2 ->
    let body := fun tags change =>
      let tag := versionTag change in
      b <- call (EHasTag tag) (git_hasTag w tag) ;;
      if b : bool then
        debug ("Skipping existing tag " ++ tag)%string ;; ret tags
      else ret (tags ++ [change]) in
    fst (foldM body l1 acc1) = fst (foldM body l2 acc2)
    /\ kept_tags (snd (foldM body l1 acc1)) = kept_tags (snd (foldM body l2 acc2)).
Proof.
  induction l1 as [| c1 l1 IH]; intros [| c2 l2] acc1 acc2 Hl Hacc;
    try discriminate Hl.
  - cbn. now rewrite Hacc.
  - injection Hl as Hc Hl. cbn zeta. cbn [foldM]. rewrite Hc.
    destruct (git_hasTag w (versionTag c2)) as [[|] | e].
    + unfold debug, ret. rewrite !bind_call. cbn [fst snd]. rewrite !bind_pair.
      cbn [fst snd]. destruct (IH l2 acc1 acc2 Hl Hacc) as [Hlog Hres].
      split; [f_equal; exact Hlog | exact Hres].
    + unfold ret. rewrite !bind_call. cbn [fst snd]. rewrite !bind_pair.
      cbn [fst snd].
      destruct (IH l2 (acc1 ++ [c1]) (acc2 ++ [c2]) Hl) as [Hlog Hres].
      { rewrite !map_app. cbn. now rewrite Hacc, Hc. }
      split; [f_equal; exact Hlog | exact Hres].
    + split; reflexivity.
Qed.

Lemma release_log_by_tag (l1 : list change) :
  forall l2,
    map versionTag l1 = map versionTag l2 ->
    release_log w l1 = release_log w l2
    /\ map versionTag (filter (fun c => negb (released w (versionTag c))) l1)
       = map versionTag (filter (fun c => negb (released w (versionTag c))) l2).
Proof.
  induction l1 as [| c1 l1 IH]; intros [| c2 l2] Hl; try discriminate Hl.
  - split; reflexivity.
  - injection Hl as Hc Hl. destruct (IH l2 Hl) as [Hlog Hres].
    cbn [release_log flat_map filter]. fold (release_log w l1).
    fold (release_log w l2). rewrite Hc, Hlog.
    split; [reflexivity |].
    destruct (released w (versionTag c2)); cbn [negb map]; now rewrite ?Hc, Hres.
Qed.

Lemma createTags_by_tag (l1 : list change) :
  forall l2,
    map versionTag l1 = map versionTag l2 -> createTags w l1 = createTags w l2.
Proof.
  unfold createTags, for_of.
  induction l1 as [| c1 l1 IH]; intros [| c2 l2] Hl; try discriminate Hl.
  - reflexivity.
  - injection Hl as Hc Hl. cbn [foldM]. rewrite Hc.
    destruct (git_createTag w (versionTag c2)) as [[] | e]; [| reflexivity].
    rewrite !bind_call. now rewrite (IH l2 Hl).
Qed.

End SharedTags.

(** ** The remaining properties *)

(** The example of the specification: of the three changed paths only
    the manifest of [foo] yields a record. *)
Example mixed_commit :
  getChangedCharts (Demo.cfg Demo.workspace false) Demo.mixed
  = ([EGetLatestChanges;
      ELoadChart "/home/runner/work/charts/charts/foo/Chart.yaml"],
     Ok [Demo.foo_change]).
Proof. reflexivity. Qed.

Example outside_commit :
  getChangedCharts (Demo.cfg Demo.workspace false) Demo.outside
  = ([EGetLatestChanges], Ok []).
Proof. reflexivity. Qed.

(** C4, at the input on which extraction departs from it.  The changed
    path [charts/foo/Chart/.yaml] is a nested file (a file [.yaml] in the
    directory [Chart] of package [foo]), not the manifest of [foo]; the
    segments after the package directory are joined with the empty
    string, which gives ["Chart.yaml"], so the file is read as a manifest
    and a record is emitted for it. *)
Theorem nested_file_yields_record :
  skipn 2 (split "/" "charts/foo/Chart/.yaml") = ["Chart"; ".yaml"]
  /\ join "" ["Chart"; ".yaml"] = "Chart.yaml"
  /\ getChangedCharts (Demo.cfg Demo.workspace false) Demo.nested
     = ([EGetLatestChanges;
         ELoadChart "/home/runner/work/charts/charts/foo/Chart/.yaml"],
        Ok [Demo.foo_change]).
Proof. repeat split. Qed.

(** C5, at the input on which extraction departs from it.  With the
    chart directory [charts], the changed path
    [charts-old/foo/Chart.yaml] lies in another directory whose name
    begins with the same characters; [startsWith] accepts it and a record
    is emitted for it. *)
Theorem sibling_directory_yields_record :
  chart_dir (Demo.cfg Demo.workspace false) = "charts"
  /\ startsWith "charts-old/foo/Chart.yaml" "charts" = true
  /\ getChangedCharts (Demo.cfg Demo.workspace false) Demo.sibling
     = ([EGetLatestChanges;
         ELoadChart "/home/runner/work/charts/charts-old/foo/Chart.yaml"],
        Ok [Demo.foo_change]).
Proof. repeat split. Qed.

(** C8, at the input on which the action departs from it.  With
    [GITHUB_WORKSPACE] unset, the action calls [setFailed] and then runs
    [main] all the same: it fetches the tool, removes and creates
    directories under the path ["undefined"], extracts, reconciles, tags,
    packages, uploads and indexes. *)
Theorem missing_workspace_still_runs :
  action (Demo.cfg JUndefined false) Demo.fresh
  = ([ESetFailed "Unable to locate workspace!";
      EDownloadTool
        "https://github.com/helm/chart-releaser/releases/download/v3.8.0/chart-releaser_3.8.0_linux_amd64.tar.gz";
      EExtractTar "/tmp/cr.tar.gz" "tools/chart-releaser";
      ECacheFile "/tmp/cr/cr" "cr" "cr" "3.8.0";
      EAddPath "/opt/hostedtoolcache/cr";
      ERmRF "undefined/.cr-release-packages";
      EMkdirP "undefined/.cr-release-packages";
      ERmRF "undefined/.cr-index";
      EMkdirP "undefined/.cr-index";
      EGetLatestChanges;
      ELoadChart "/home/runner/undefined/charts/foo/Chart.yaml";
      EHasTag "foo-1.2.0";
      EReleaseRequest "foo-1.2.0";
      EInfo "Creating tags: foo-1.2.0";
      ECreateTag "foo-1.2.0";
      EInfo "Packaging charts: foo-1.2.0";
      EExec "cr" [JStr "package"; JStr "charts/foo"];
      EInfo "Publishing charts: foo-1.2.0";
      EExec "cr" [JStr "upload"; JStr "-o"; JStr "example"; JStr "-r";
                  JStr "charts"; JStr "-c"; JStr "4f2a9c1"];
      EInfo "Generating chart repo index";
      EExec "cr" [JStr "index"; JStr "-o"; JStr "example"; JStr "-r";
                  JStr "charts"; JStr "-c";
                  JStr "https://example.github.io/charts"; JStr "--push"];
      EInfo "Action Completed Successfully"],
     Ok tt).
Proof. reflexivity. Qed.

(** The same for every input and every collaborator: the workspace check
    only adds a [setFailed] call in front of what the action does
    otherwise. *)
Lemma missing_workspace_prepends (cfg : inputs) (w : world) :
  falsy (work_dir cfg) = true ->
  action cfg w
  = (ESetFailed "Unable to locate workspace!"
       :: fst (try_catch
                 (main cfg w ;; info "Action Completed Successfully")
                 (fun e =>
                    error e ;;
                    setFailed ("Error during action execution! " ++ e)%string)),
     snd (try_catch
            (main cfg w ;; info "Action Completed Successfully")
            (fun e =>
               error e ;;
               setFailed ("Error during action execution! " ++ e)%string))).
Proof.
  intros Hw. unfold action. rewrite Hw. unfold setFailed at 1.
  now rewrite bind_call.
Qed.

(** C9. Packaging works on the manifest-declared name.  A changed path
    that passes the filter yields the record of the name and version its
    manifest declares, whatever directory the path names; and
    [packageCharts] calls [cr package] on [chart_dir/<chart of the
    record>] for the records in order, up to the first call that fails:
    on all of them when none fails. *)
Theorem packaging_uses_manifest_name (cfg : inputs) (w : world)
    (p : string) (d : doc) (changed builds : list change) :
  isManifestChange cfg p = true ->
  yaml_load w (manifest_path cfg w p) = Ok (Some d) ->
  snd (changed_step cfg w changed p)
  = Ok (changed ++ [{| chart := doc_name d; version := doc_version d |}])
  /\ (exists n, fst (packageCharts cfg w builds)
                = map (fun c =>
                         EExec "cr"
                           [JStr "package";
                            JStr (chart_dir cfg ++ "/" ++ template (chart c))%string])
                      (firstn n builds))
  /\ ((forall c, In c builds ->
         exec_exec w "cr"
           [JStr "package";
            JStr (chart_dir cfg ++ "/" ++ template (chart c))%string]
         = Ok tt) ->
      packageCharts cfg w builds
      = (map (fun c =>
                EExec "cr"
                  [JStr "package";
                   JStr (chart_dir cfg ++ "/" ++ template (chart c))%string])
             builds,
         Ok tt)).
Proof.
  intros Hp Hload. split; [| split].
  - rewrite (changed_step_load cfg w changed p Hp). unfold loadChart.
    now rewrite Hload, bind_call.
  - apply packageCharts_prefix.
  - apply packageCharts_run.
Qed.

Lemma packaging_uses_manifest_name_witness :
  isManifestChange (Demo.cfg Demo.workspace false) "charts/dir-a/Chart.yaml" = true
  /\ snd (changed_step (Demo.cfg Demo.workspace false) Demo.renamed []
                       "charts/dir-a/Chart.yaml")
     = Ok [Demo.other_change]
  /\ packageCharts (Demo.cfg Demo.workspace false) Demo.renamed [Demo.other_change]
     = ([EExec "cr" [JStr "package"; JStr "charts/other"]], Ok tt).
Proof.
  split; [reflexivity |].
  destruct (packaging_uses_manifest_name (Demo.cfg Demo.workspace false)
              Demo.renamed "charts/dir-a/Chart.yaml" Demo.other_031
              [] [Demo.other_change] eq_refl eq_refl)
    as (Hstep & _ & Hpack).
  split; [exact Hstep |].
  apply Hpack. intros c _. reflexivity.
Defined.

(** C10 as stated fails: the two records with the tag ["foo-1-0.0"] are
    told apart by packaging, which is called on [charts/foo] for the one
    and on [charts/foo-1] for the other, in [packageCharts] and so in
    the log of the whole action. *)
Lemma collision_is_seen_by_packaging :
  versionTag Demo.foo_1_00 = versionTag Demo.foo1_00
  /\ fst (packageCharts (Demo.cfg Demo.workspace false) Demo.fresh [Demo.foo_1_00])
     = [EExec "cr" [JStr "package"; JStr "charts/foo"]]
  /\ fst (packageCharts (Demo.cfg Demo.workspace false) Demo.fresh [Demo.foo1_00])
     = [EExec "cr" [JStr "package"; JStr "charts/foo-1"]]
  /\ fst (action (Demo.cfg Demo.workspace false) Demo.collide_a)
     <> fst (action (Demo.cfg Demo.workspace false) Demo.collide_b).
Proof.
  repeat split. intros H. vm_compute in H. discriminate H.
Qed.

(** C10, amended.  The map from records to tags is not injective:
    [{foo, 1-0.0}] and [{foo-1, 0.0}] are distinct and share the tag
    ["foo-1-0.0"].  Tag reconciliation, release reconciliation, tag
    creation and the tag lists that [main] logs read a record only
    through its tag: on two change sets with the same tags in the same
    order they make the same calls, keep records with the same tags and
    create the same tags. *)
Theorem versionTag_not_injective :
  (Demo.foo_1_00 <> Demo.foo1_00
   /\ versionTag Demo.foo_1_00 = "foo-1-0.0"
   /\ versionTag Demo.foo1_00 = "foo-1-0.0")
  /\ forall (w : world) (l1 l2 : list change),
       map versionTag l1 = map versionTag l2 ->
       fst (getNeededTags w l1) = fst (getNeededTags w l2)
       /\ kept_tags (snd (getNeededTags w l1)) = kept_tags (snd (getNeededTags w l2))
       /\ fst (getNeededBuilds w l1) = fst (getNeededBuilds w l2)
       /\ kept_tags (snd (getNeededBuilds w l1))
          = kept_tags (snd (getNeededBuilds w l2))
       /\ createTags w l1 = createTags w l2
       /\ tagList l1 = tagList l2.
Proof.
  split; [repeat split; discriminate |].
  intros w l1 l2 Hl.
  destruct (getNeededTags_by_tag w l1 l2 [] [] Hl eq_refl) as [Hlog Hres].
  destruct (release_log_by_tag w l1 l2 Hl) as [Hrlog Hrres].
  rewrite !getNeededBuilds_run. cbn [fst snd kept_tags].
  repeat split.
  - exact Hlog.
  - exact Hres.
  - exact Hrlog.
  - now rewrite Hrres.
  - now apply createTags_by_tag.
  - unfold tagList. now rewrite Hl.
Qed.

Lemma versionTag_not_injective_witness :
  map versionTag [Demo.foo_1_00] = map versionTag [Demo.foo1_00]
  /\ getNeededTags Demo.fresh [Demo.foo_1_00] = ([EHasTag "foo-1-0.0"], Ok [Demo.foo_1_00])
  /\ getNeededTags Demo.fresh [Demo.foo1_00] = ([EHasTag "foo-1-0.0"], Ok [Demo.foo1_00])
  /\ createTags Demo.fresh [Demo.foo_1_00] = createTags Demo.fresh [Demo.foo1_00].
Proof.
  split; [reflexivity |]. split; [reflexivity |]. split; [reflexivity |].
  destruct versionTag_not_injective as [_ H].
  now destruct (H Demo.fresh [Demo.foo_1_00] [Demo.foo1_00] eq_refl)
    as (_ & _ & _ & _ & Hcreate & _).
Defined.

(** ** The steps of [main], one by one *)

Section Steps.

Variable cfg : inputs.
Variable w : world.

Lemma fetchTools_quiet : only quiet (fetchTools cfg w).
Proof. unfold fetchTools. only_tac. Qed.

Lemma fetchTools_setup : only is_setup (fetchTools cfg w).
Proof. unfold fetchTools. only_tac. Qed.

Lemma getChangedCharts_quiet : only quiet (getChangedCharts cfg w).
Proof. unfold getChangedCharts, changed_step, loadChart. only_tac. Qed.

Lemma getNeededTags_quiet (changes : list change) :
  only quiet (getNeededTags w changes).
Proof. unfold getNeededTags. only_tac. Qed.

Lemma getNeededTags_before_builds (changes : list change) :
  only before_builds (getNeededTags w changes).
Proof. unfold getNeededTags. only_tac. Qed.

Lemma getNeededBuilds_quiet (changes : list change) :
  only quiet (getNeededBuilds w changes).
Proof. unfold getNeededBuilds, releaseExists. only_tac. Qed.

Lemma quiet_log {A} (m : run A) (t : list event) (r : result A) :
  only quiet m -> m = (t, r) -> filter is_mutation t = [].
Proof. intros H ->. now apply only_quiet_no_mutation in H. Qed.

(** A record on which [git.hasTag] throws makes [getNeededTags] throw. *)
Lemma getNeededTags_throws (changes : list change) (c : change) (e : err) :
  In c changes ->
  git_hasTag w (versionTag c) = Throw e ->
  exists e', snd (getNeededTags w changes) = Throw e'.
Proof.
  intros Hin He. unfold getNeededTags.
  apply (foldM_throws _ changes c Hin).
  intros acc. exists e. cbn zeta. now rewrite He.
Qed.

(** What [getNeededTags] keeps is in the change set, whatever the oracle
    does. *)
Lemma getNeededTags_incl (changes : list change) :
  forall needed, snd (getNeededTags w changes) = Ok needed -> incl needed changes.
Proof.
  unfold getNeededTags.
  assert (H : forall l acc needed,
             snd (foldM (fun tags change =>
                           let tag := versionTag change in
                           b <- call (EHasTag tag) (git_hasTag w tag) ;;
                           if b : bool then
                             debug ("Skipping existing tag " ++ tag)%string ;;
                             ret tags
                           else ret (tags ++ [change])) l acc) = Ok needed ->
             incl needed (acc ++ l)).
  { induction l as [| c l IH]; intros acc needed.
    - cbn. intros [= <-]. now rewrite app_nil_r.
    - cbn [foldM]. cbn zeta.
      destruct (git_hasTag w (versionTag c)) as [[|] | e].
      + unfold debug, ret. rewrite !bind_call. cbn [fst snd].
        rewrite bind_pair. cbn [snd]. intros H. apply IH in H.
        intros x Hx. apply H, in_app_or in Hx as [Hx | Hx];
          apply in_or_app; [now left | right; now right].
      + unfold ret. rewrite !bind_call. cbn [fst snd].
        rewrite bind_pair. cbn [snd]. intros H. apply IH in H.
        rewrite <- app_assoc in H. exact H.
      + cbn. discriminate. }
  intros needed Hn. now apply (H changes [] needed).
Qed.

Lemma getNeededBuilds_incl (changes needed : list change) :
  snd (getNeededBuilds w changes) = Ok needed -> incl needed changes.
Proof.
  rewrite getNeededBuilds_run. intros [= <-] x Hx.
  now apply filter_In in Hx.
Qed.


(** A null document at a path that passes the filter makes extraction
    throw. *)
Lemma getChangedCharts_null (paths : list string) (p : string) :
  git_getLatestChanges w = Ok paths ->
  In p paths ->
  isManifestChange cfg p = true ->
  yaml_load w (manifest_path cfg w p) = Ok None ->
  exists e', snd (getChangedCharts cfg w) = Throw e'.
Proof.
  intros Hlatest Hin Hp Hload. unfold getChangedCharts.
  rewrite Hlatest, bind_call. cbn [snd].
  apply (foldM_throws (changed_step cfg w) paths p Hin).
  intros acc. eexists. rewrite (changed_step_load cfg w acc p Hp).
  unfold loadChart. rewrite Hload. reflexivity.
Qed.

(** When tag reconciliation throws, [main] throws before the release
    queries. *)
Lemma main_stops_at_tags (changes : list change) :
  snd (getChangedCharts cfg w) = Ok changes ->
  (exists e, snd (getNeededTags w changes) = Throw e) ->
  only before_builds (main cfg w) /\ exists e, snd (main cfg w) = Throw e.
Proof.
  intros Hx [e He]. rewrite main_eq. split.
  - apply only_bind; [unfold fetchTools; only_tac | intros _ _].
    do 4 (apply only_bind; [only_tac | intros _ _]).
    apply only_bind;
      [unfold getChangedCharts, changed_step, loadChart; only_tac
      | intros changes' Hc].
    assert (changes' = changes) by congruence. subst changes'.
    apply only_bind; [apply getNeededTags_before_builds | congruence].
  - do 5 (apply bind_throws_after; intros _ _).
    apply bind_throws_after. intros changes' Hc.
    assert (changes' = changes) by congruence. subst changes'.
    apply bind_throws. now exists e.
Qed.

End Steps.

(** X1. [getNeededBuilds] never throws and is an order-preserving
    filter: it asks the release query once per record, in input order and
    without remembering earlier answers, keeps exactly the records whose
    query fails, and makes no mutating call. *)
Theorem getNeededBuilds_is_filter (w : world) (changes : list change) :
  snd (getNeededBuilds w changes)
  = Ok (filter (fun c => negb (released w (versionTag c))) changes)
  /\ filter is_query (fst (getNeededBuilds w changes))
     = map (fun c => EReleaseRequest (versionTag c)) changes
  /\ filter is_mutation (fst (getNeededBuilds w changes)) = [].
Proof.
  split; [now rewrite getNeededBuilds_run |]. split.
  - rewrite getNeededBuilds_run. cbn [fst].
    induction changes as [| c l IH]; [reflexivity |].
    cbn [release_log flat_map map]. fold (release_log w l).
    rewrite filter_app, IH. now destruct (released w (versionTag c)).
  - apply only_quiet_no_mutation, getNeededBuilds_quiet.
Qed.

(** X2. An error of the tag oracle is fatal, unlike one of the release
    query: if [git.hasTag] throws on a record of the extracted change
    set, [getNeededTags] throws, the action reports the run as failed,
    and it has made no release query and no mutating call. *)
Theorem tag_oracle_error_is_fatal (cfg : inputs) (w : world)
    (changes : list change) (c : change) (e : err) :
  snd (getChangedCharts cfg w) = Ok changes ->
  In c changes ->
  git_hasTag w (versionTag c) = Throw e ->
  (exists e', snd (getNeededTags w changes) = Throw e')
  /\ failed (fst (action cfg w)) = true
  /\ filter is_release_query (fst (action cfg w)) = []
  /\ filter is_mutation (fst (action cfg w)) = [].
Proof.
  intros Hx Hin He.
  pose proof (getNeededTags_throws w changes c e Hin He) as Ht.
  destruct (main_stops_at_tags cfg w changes Hx Ht) as [Honly [e' He']].
  assert (Hact : only before_builds (action cfg w))
    by (now apply action_only).
  split; [exact Ht |]. split; [| split].
  - pose proof (action_reports cfg w (fst (main cfg w)) e') as Hrep.
    rewrite <- He', <- surjective_pairing in Hrep. rewrite (Hrep eq_refl).
    cbn [fst]. unfold failed. rewrite !existsb_app. cbn.
    now rewrite !orb_true_r.
  - apply filter_none. revert Hact. unfold only. apply Forall_impl.
    intros ev Hev. now apply andb_prop in Hev as [_ ?].
  - apply filter_none. revert Hact. unfold only. apply Forall_impl.
    intros ev Hev. now apply andb_prop in Hev as [? _].
Qed.

Lemma tag_oracle_error_is_fatal_witness :
  snd (getChangedCharts (Demo.cfg Demo.workspace false) Vary.no_git)
  = Ok Vary.foo_other
  /\ (exists e', snd (getNeededTags Vary.no_git Vary.foo_other) = Throw e')
  /\ failed (fst (action (Demo.cfg Demo.workspace false) Vary.no_git)) = true
  /\ filter is_release_query
       (fst (action (Demo.cfg Demo.workspace false) Vary.no_git)) = []
  /\ filter is_mutation
       (fst (action (Demo.cfg Demo.workspace false) Vary.no_git)) = [].
Proof.
  split; [reflexivity |].
  apply (tag_oracle_error_is_fatal (Demo.cfg Demo.workspace false) Vary.no_git
           Vary.foo_other Demo.foo_change "fatal: not a git repository").
  - reflexivity.
  - now left.
  - reflexivity.
Defined.



(** X4. An empty manifest is fatal: if the commit changed a path that
    passes the filter and the YAML document read there is null (an empty
    file), the destructuring in [getChangedCharts] throws; the action
    reports the run as failed and has made only upstream calls before
    the report. *)
Theorem empty_manifest_is_fatal (cfg : inputs) (w : world)
    (paths : list string) (p : string) :
  git_getLatestChanges w = Ok paths ->
  In p paths ->
  isManifestChange cfg p = true ->
  yaml_load w (manifest_path cfg w p) = Ok None ->
  (exists e', snd (getChangedCharts cfg w) = Throw e')
  /\ (exists t e',
        action cfg w
        = (t ++ [EError e';
                 ESetFailed ("Error during action execution! " ++ e')%string],
           Ok tt)
        /\ Forall (fun ev => is_upstream ev = true) t).
Proof.
  intros Hlatest Hin Hp Hload.
  pose proof (getChangedCharts_null cfg w paths p Hlatest Hin Hp Hload) as Hx.
  destruct (main_stops_at_extraction cfg w Hx) as [Hup [e' He']].
  pose proof (action_reports cfg w (fst (main cfg w)) e') as Hact.
  rewrite <- He', <- surjective_pairing in Hact. specialize (Hact eq_refl).
  split; [exact Hx |].
  exists ((if falsy (work_dir cfg)
           then [ESetFailed "Unable to locate workspace!"] else [])
          ++ fst (main cfg w)), e'.
  split; [now rewrite Hact, <- app_assoc |].
  apply Forall_app. split; [| exact Hup].
  destruct (falsy (work_dir cfg)); repeat constructor.
Qed.

Lemma empty_manifest_is_fatal_witness :
  yaml_load Vary.empty_manifest
    (manifest_path (Demo.cfg Demo.workspace false) Vary.empty_manifest
                   "charts/foo/Chart.yaml") = Ok None
  /\ action (Demo.cfg Demo.workspace false) Vary.empty_manifest
     = (fst (main (Demo.cfg Demo.workspace false) Vary.empty_manifest)
        ++ [EError "TypeError: Cannot destructure property 'name'";
            ESetFailed "Error during action execution! TypeError: Cannot destructure property 'name'"],
        Ok tt)
  /\ exists e', snd (getChangedCharts (Demo.cfg Demo.workspace false)
                                      Vary.empty_manifest) = Throw e'.
Proof.
  split; [reflexivity |]. split; [reflexivity |].
  apply (empty_manifest_is_fatal (Demo.cfg Demo.workspace false)
           Vary.empty_manifest ["charts/foo/Chart.yaml"]
           "charts/foo/Chart.yaml"); try reflexivity.
  now left.
Defined.

(** ** A run after reconciliation *)

Section Stages.

Variable cfg : inputs.
Variable w : world.

Lemma release_steps_stages (nt nb : list change) :
  release_steps cfg w nt nb = (tag_stage cfg w nt ;; build_stage cfg w nb).
Proof. reflexivity. Qed.

Lemma main_reconcile :
  main cfg w
  = (x <- reconcile cfg w ;; release_steps cfg w (fst x) (snd x)).
Proof.
  rewrite main_eq. unfold reconcile.
  destruct (fetchTools cfg w) as [tf [[] | e]]; [| reflexivity].
  rewrite !bind_pair.
  destruct (io_rmRF w _) as [[] | e]; [| reflexivity].
  destruct (io_mkdirP w _) as [[] | e]; [| reflexivity].
  destruct (io_rmRF w _) as [[] | e]; [| reflexivity].
  destruct (io_mkdirP w _) as [[] | e]; [| reflexivity].
  rewrite !bind_call. cbn [fst snd].
  destruct (getChangedCharts cfg w) as [tx [changes | e]]; [| reflexivity].
  rewrite !bind_pair.
  destruct (getNeededTags w changes) as [tn [nt | e]]; [| reflexivity].
  rewrite !bind_pair.
  destruct (getNeededBuilds w changes) as [tb [nb | e]]; [| reflexivity].
  rewrite !bind_pair. cbn [fst snd ret]. rewrite bind_pair. cbn [fst snd].
  f_equal. rewrite <- !app_assoc. cbn [app]. now rewrite <- !app_assoc.
Qed.

Lemma reconcile_quiet : only quiet (reconcile cfg w).
Proof.
  unfold reconcile.
  apply only_bind; [apply fetchTools_quiet | intros _ _].
  do 4 (apply only_bind; [only_tac | intros _ _]).
  apply only_bind; [apply getChangedCharts_quiet | intros changes _].
  apply only_bind; [apply getNeededTags_quiet | intros nt _].
  apply only_bind; [apply getNeededBuilds_quiet | intros nb _].
  apply only_ret.
Qed.

(** The action after a reconciliation that did not fail. *)
Lemma action_after_reconcile (pre t : list event) (nt nb : list change)
    (r : result unit) :
  falsy (work_dir cfg) = false ->
  reconcile cfg w = (pre, Ok (nt, nb)) ->
  release_steps cfg w nt nb = (t, r) ->
  action cfg w
  = (pre ++ t ++ match r with
                 | Ok _ => [EInfo "Action Completed Successfully"]
                 | Throw e => report e
                 end,
     Ok tt).
Proof.
  intros Hw Hrec Hsteps.
  assert (Hmain : main cfg w = (pre ++ t, r)).
  { rewrite main_reconcile, Hrec, bind_pair. cbn [fst snd]. now rewrite Hsteps. }
  unfold action. rewrite Hw, Hmain.
  destruct r as [[] | e]; cbn; now rewrite <- app_assoc.
Qed.

Lemma createTags_run (l : list change) :
  (forall c, In c l -> git_createTag w (versionTag c) = Ok tt) ->
  createTags w l = (map create_call l, Ok tt).
Proof.
  unfold createTags, for_of.
  induction l as [| c l IH]; intros H; [reflexivity |].
  cbn [foldM]. cbn zeta. rewrite (H c (or_introl eq_refl)), bind_call.
  now rewrite IH by (intros; apply H; now right).
Qed.

Lemma createTags_stops (l1 l2 : list change) (c : change) (e : err) :
  (forall x, In x l1 -> git_createTag w (versionTag x) = Ok tt) ->
  git_createTag w (versionTag c) = Throw e ->
  createTags w (l1 ++ c :: l2) = (map create_call (l1 ++ [c]), Throw e).
Proof.
  unfold createTags, for_of. intros H He.
  induction l1 as [| x l1 IH].
  - cbn [app foldM]. cbn zeta. now rewrite He.
  - cbn [app foldM]. cbn zeta. rewrite (H x (or_introl eq_refl)), bind_call.
    now rewrite IH by (intros; apply H; now right).
Qed.

Lemma packageCharts_stops (l1 l2 : list change) (c : change) (e : err) :
  (forall x, In x l1 -> exec_exec w "cr" (package_args cfg x) = Ok tt) ->
  exec_exec w "cr" (package_args cfg c) = Throw e ->
  packageCharts cfg w (l1 ++ c :: l2)
  = (map (package_call cfg) (l1 ++ [c]), Throw e).
Proof.
  unfold packageCharts, for_of, cr, package_args. intros H He.
  induction l1 as [| x l1 IH].
  - cbn [app foldM]. now rewrite He.
  - cbn [app foldM]. rewrite (H x (or_introl eq_refl)), bind_call.
    now rewrite IH by (intros; apply H; now right).
Qed.

Lemma tag_stage_real (nt : list change) :
  dry_run cfg = false ->
  (forall c, In c nt -> git_createTag w (versionTag c) = Ok tt) ->
  tag_stage cfg w nt = (tag_stage_log nt, Ok tt).
Proof.
  intros Hdry H. unfold tag_stage, tag_stage_log, skipIfDryRun.
  rewrite Hdry, (createTags_run nt H).
  destruct nt; cbn; now rewrite ?app_nil_r.
Qed.

Lemma tag_stage_fails (l1 l2 : list change) (c : change) (e : err) :
  dry_run cfg = false ->
  (forall x, In x l1 -> git_createTag w (versionTag x) = Ok tt) ->
  git_createTag w (versionTag c) = Throw e ->
  tag_stage cfg w (l1 ++ c :: l2)
  = (EInfo ("Creating tags: " ++ tagList (l1 ++ c :: l2))%string
       :: map create_call (l1 ++ [c]),
     Throw e).
Proof.
  intros Hdry H He. unfold tag_stage, skipIfDryRun.
  rewrite Hdry, (createTags_stops l1 l2 c e H He). now destruct l1.
Qed.

Lemma build_stage_real (nb : list change) :
  dry_run cfg = false ->
  (forall c, In c nb -> exec_exec w "cr" (package_args cfg c) = Ok tt) ->
  (nb <> [] -> exec_exec w "cr" (upload_args cfg) = Ok tt) ->
  (nb <> [] -> exec_exec w "cr" (index_args cfg) = Ok tt) ->
  build_stage cfg w nb = (build_stage_log cfg nb, Ok tt).
Proof.
  intros Hdry Hp Hu Hi. destruct nb as [| c l]; [reflexivity |].
  unfold build_stage, build_stage_log, skipIfDryRun, publishCharts, updateIndex, cr.
  fold (upload_args cfg). fold (index_args cfg).
  rewrite Hdry, (packageCharts_run cfg w (c :: l) Hp), Hu, Hi by discriminate.
  cbn. now rewrite app_nil_r.
Qed.

Lemma build_stage_package_fails (l1 l2 : list change) (c : change) (e : err) :
  dry_run cfg = false ->
  (forall x, In x l1 -> exec_exec w "cr" (package_args cfg x) = Ok tt) ->
  exec_exec w "cr" (package_args cfg c) = Throw e ->
  build_stage cfg w (l1 ++ c :: l2)
  = (EInfo ("Packaging charts: " ++ tagList (l1 ++ c :: l2))%string
       :: map (package_call cfg) (l1 ++ [c]),
     Throw e).
Proof.
  intros Hdry H He. unfold build_stage, skipIfDryRun.
  rewrite Hdry, (packageCharts_stops l1 l2 c e H He). now destruct l1.
Qed.

Lemma build_stage_upload_fails (nb : list change) (e : err) :
  dry_run cfg = false ->
  nb <> [] ->
  (forall c, In c nb -> exec_exec w "cr" (package_args cfg c) = Ok tt) ->
  exec_exec w "cr" (upload_args cfg) = Throw e ->
  build_stage cfg w nb
  = (EInfo ("Packaging charts: " ++ tagList nb)%string
       :: map (package_call cfg) nb
       ++ [EInfo ("Publishing charts: " ++ tagList nb)%string;
           EExec "cr" (upload_args cfg)],
     Throw e).
Proof.
  intros Hdry Hne Hp Hu. destruct nb as [| c l]; [easy |].
  unfold build_stage, skipIfDryRun, publishCharts, cr.
  fold (upload_args cfg).
  rewrite Hdry, (packageCharts_run cfg w (c :: l) Hp), Hu.
  cbn. now rewrite app_nil_r.
Qed.

Lemma filter_mutation_creates (l : list change) :
  filter is_mutation (map create_call l) = map create_call l.
Proof. induction l as [| c l IH]; [reflexivity |]. cbn. now rewrite IH. Qed.

Lemma filter_mutation_packages (l : list change) :
  filter is_mutation (map (package_call cfg) l) = map (package_call cfg) l.
Proof. induction l as [| c l IH]; [reflexivity |]. cbn. now rewrite IH. Qed.

End Stages.

Section StageLogs.

Variable cfg : inputs.

Lemma tag_stage_log_mutations (nt : list change) :
  filter is_mutation (tag_stage_log nt) = map create_call nt.
Proof.
  unfold tag_stage_log. destruct nt as [| c l]; [reflexivity |].
  cbn [nonempty filter is_mutation]. apply filter_mutation_creates.
Qed.

Lemma build_stage_log_mutations (nb : list change) :
  filter is_mutation (build_stage_log cfg nb)
  = if nonempty nb then
      map (package_call cfg) nb
      ++ [EExec "cr" (upload_args cfg); EExec "cr" (index_args cfg)]
    else [].
Proof.
  unfold build_stage_log. destruct nb as [| c l]; [reflexivity |].
  cbn [nonempty filter is_mutation].
  now rewrite filter_app, filter_mutation_packages.
Qed.

Lemma succeeded_unit (r : result unit) : succeeded r = true -> r = Ok tt.
Proof. destruct r as [[] | e]; [reflexivity | discriminate]. Qed.

End StageLogs.

(** A hypothesis on the records of a concrete list, record by record. *)
Ltac each_record :=
  let x := fresh "x" in
  let H := fresh "H" in
  intros x H;
  repeat (destruct H as [<- | H]; [reflexivity |]);
  destruct H.

(** X5. The sequence of a real run.  With dry-run off, the workspace set
    and nothing failing, after reconciliation the action creates one tag
    per needed tag in order, then, if a build is needed, packages every
    needed build in order, calls [cr upload] once and [cr index] once,
    and completes; these are all its mutating calls, in this order. *)
Theorem real_run_sequence (cfg : inputs) (w : world) (pre : list event)
    (nt nb : list change) :
  dry_run cfg = false ->
  falsy (work_dir cfg) = false ->
  reconcile cfg w = (pre, Ok (nt, nb)) ->
  (forall c, In c nt -> git_createTag w (versionTag c) = Ok tt) ->
  (forall c, In c nb -> exec_exec w "cr" (package_args cfg c) = Ok tt) ->
  (nb <> [] -> exec_exec w "cr" (upload_args cfg) = Ok tt) ->
  (nb <> [] -> exec_exec w "cr" (index_args cfg) = Ok tt) ->
  action cfg w
  = (pre ++ (tag_stage_log nt ++ build_stage_log cfg nb)
         ++ [EInfo "Action Completed Successfully"],
     Ok tt)
  /\ filter is_mutation (fst (action cfg w)) = mutations_of cfg nt nb.
Proof.
  intros Hdry Hw Hrec Ht Hp Hu Hi.
  assert (Hsteps : release_steps cfg w nt nb
                   = (tag_stage_log nt ++ build_stage_log cfg nb, Ok tt)).
  { rewrite release_steps_stages, (tag_stage_real cfg w nt Hdry Ht), bind_pair.
    now rewrite (build_stage_real cfg w nb Hdry Hp Hu Hi). }
  pose proof (action_after_reconcile cfg w pre _ nt nb _ Hw Hrec Hsteps) as Hact.
  split; [exact Hact |].
  rewrite Hact. cbn [fst]. rewrite !filter_app.
  rewrite (quiet_log _ _ _ (reconcile_quiet cfg w) Hrec).
  rewrite tag_stage_log_mutations, build_stage_log_mutations.
  cbn [app filter is_mutation]. now rewrite app_nil_r.
Qed.

Lemma real_run_sequence_witness :
  reconcile (Demo.cfg Demo.workspace false) Vary.two_charts
  = (fst (reconcile (Demo.cfg Demo.workspace false) Vary.two_charts),
     Ok (Vary.foo_other, Vary.foo_other))
  /\ filter is_mutation
       (fst (action (Demo.cfg Demo.workspace false) Vary.two_charts))
     = [ECreateTag "foo-1.2.0"; ECreateTag "other-0.3.1";
        EExec "cr" [JStr "package"; JStr "charts/foo"];
        EExec "cr" [JStr "package"; JStr "charts/other"];
        EExec "cr" [JStr "upload"; JStr "-o"; JStr "example"; JStr "-r";
                    JStr "charts"; JStr "-c"; JStr "4f2a9c1"];
        EExec "cr" [JStr "index"; JStr "-o"; JStr "example"; JStr "-r";
                    JStr "charts"; JStr "-c";
                    JStr "https://example.github.io/charts"; JStr "--push"]].
Proof.
  split; [reflexivity |].
  refine (proj2 (real_run_sequence (Demo.cfg Demo.workspace false)
                   Vary.two_charts
                   (fst (reconcile (Demo.cfg Demo.workspace false) Vary.two_charts))
                   Vary.foo_other Vary.foo_other _ _ _ _ _ _ _));
    first [reflexivity | each_record].
Defined.

(** X6. A tag creation that fails ends the run and is not rolled back:
    in a real run, if [git.createTag] throws on a needed tag after
    succeeding on the ones before it, the tags before it and the failing
    one were requested, no later tag is, [cr] is never called, and the
    action reports the error. *)
Theorem tag_failure_stops_the_run (cfg : inputs) (w : world)
    (pre : list event) (l1 l2 nb : list change) (c : change) (e : err) :
  dry_run cfg = false ->
  falsy (work_dir cfg) = false ->
  reconcile cfg w = (pre, Ok (l1 ++ c :: l2, nb)) ->
  (forall x, In x l1 -> git_createTag w (versionTag x) = Ok tt) ->
  git_createTag w (versionTag c) = Throw e ->
  action cfg w
  = (pre ++ (EInfo ("Creating tags: " ++ tagList (l1 ++ c :: l2))%string
               :: map create_call (l1 ++ [c]))
         ++ report e,
     Ok tt)
  /\ filter is_mutation (fst (action cfg w)) = map create_call (l1 ++ [c]).
Proof.
  intros Hdry Hw Hrec Ht He.
  assert (Hsteps : release_steps cfg w (l1 ++ c :: l2) nb
                   = (EInfo ("Creating tags: " ++ tagList (l1 ++ c :: l2))%string
                        :: map create_call (l1 ++ [c]),
                      Throw e)).
  { now rewrite release_steps_stages, (tag_stage_fails cfg w l1 l2 c e Hdry Ht He). }
  pose proof (action_after_reconcile cfg w pre _ _ nb _ Hw Hrec Hsteps) as Hact.
  split; [exact Hact |].
  rewrite Hact. cbn [fst]. rewrite !filter_app.
  rewrite (quiet_log _ _ _ (reconcile_quiet cfg w) Hrec).
  cbn [app filter is_mutation report]. rewrite filter_mutation_creates.
  now rewrite app_nil_r.
Qed.

Lemma tag_failure_stops_the_run_witness :
  git_createTag Vary.tag_rejected (versionTag Demo.other_change)
  = Throw "Error: tag already exists"
  /\ filter is_mutation
       (fst (action (Demo.cfg Demo.workspace false) Vary.tag_rejected))
     = [ECreateTag "foo-1.2.0"; ECreateTag "other-0.3.1"]
  /\ failed (fst (action (Demo.cfg Demo.workspace false) Vary.tag_rejected)) = true.
Proof.
  split; [reflexivity |]. split; [| reflexivity].
  refine (proj2 (tag_failure_stops_the_run (Demo.cfg Demo.workspace false)
                   Vary.tag_rejected
                   (fst (reconcile (Demo.cfg Demo.workspace false)
                                   Vary.tag_rejected))
                   [Demo.foo_change] [] Vary.foo_other Demo.other_change
                   "Error: tag already exists" _ _ _ _ _));
    first [reflexivity | each_record].
Defined.

(** X7. A packaging that fails ends the run before the upload: in a real
    run whose tags were created, if [cr package] throws on a needed build
    after succeeding on the ones before it, no later build is packaged,
    [cr upload] and [cr index] are never called, the tags stay created,
    and the action reports the error. *)
Theorem package_failure_stops_the_run (cfg : inputs) (w : world)
    (pre : list event) (nt l1 l2 : list change) (c : change) (e : err) :
  dry_run cfg = false ->
  falsy (work_dir cfg) = false ->
  reconcile cfg w = (pre, Ok (nt, l1 ++ c :: l2)) ->
  (forall x, In x nt -> git_createTag w (versionTag x) = Ok tt) ->
  (forall x, In x l1 -> exec_exec w "cr" (package_args cfg x) = Ok tt) ->
  exec_exec w "cr" (package_args cfg c) = Throw e ->
  action cfg w
  = (pre ++ (tag_stage_log nt
             ++ EInfo ("Packaging charts: " ++ tagList (l1 ++ c :: l2))%string
                  :: map (package_call cfg) (l1 ++ [c]))
         ++ report e,
     Ok tt)
  /\ filter is_mutation (fst (action cfg w))
     = map create_call nt ++ map (package_call cfg) (l1 ++ [c]).
Proof.
  intros Hdry Hw Hrec Ht Hp He.
  assert (Hsteps : release_steps cfg w nt (l1 ++ c :: l2)
                   = (tag_stage_log nt
                      ++ EInfo ("Packaging charts: " ++ tagList (l1 ++ c :: l2))%string
                           :: map (package_call cfg) (l1 ++ [c]),
                      Throw e)).
  { rewrite release_steps_stages, (tag_stage_real cfg w nt Hdry Ht), bind_pair.
    now rewrite (build_stage_package_fails cfg w l1 l2 c e Hdry Hp He). }
  pose proof (action_after_reconcile cfg w pre _ nt _ _ Hw Hrec Hsteps) as Hact.
  split; [exact Hact |].
  rewrite Hact. cbn [fst]. rewrite !filter_app.
  rewrite (quiet_log _ _ _ (reconcile_quiet cfg w) Hrec), tag_stage_log_mutations.
  cbn [app filter is_mutation report]. rewrite filter_mutation_packages.
  now rewrite app_nil_r.
Qed.

Lemma package_failure_stops_the_run_witness :
  exec_exec Vary.package_fails "cr"
    (package_args (Demo.cfg Demo.workspace false) Demo.other_change)
  = Throw "Error: cr exited with code 1"
  /\ filter is_mutation
       (fst (action (Demo.cfg Demo.workspace false) Vary.package_fails))
     = [ECreateTag "foo-1.2.0"; ECreateTag "other-0.3.1";
        EExec "cr" [JStr "package"; JStr "charts/foo"];
        EExec "cr" [JStr "package"; JStr "charts/other"]].
Proof.
  split; [reflexivity |].
  refine (proj2 (package_failure_stops_the_run (Demo.cfg Demo.workspace false)
                   Vary.package_fails
                   (fst (reconcile (Demo.cfg Demo.workspace false)
                                   Vary.package_fails))
                   Vary.foo_other [Demo.foo_change] [] Demo.other_change
                   "Error: cr exited with code 1" _ _ _ _ _ _));
    first [reflexivity | each_record].
Defined.

(** X8. An upload that fails ends the run before the index: in a real
    run whose tags were created and whose needed builds were all
    packaged, if [cr upload] throws, it was called once, [cr index] is
    never called, and the action reports the error. *)
Theorem upload_failure_skips_the_index (cfg : inputs) (w : world)
    (pre : list event) (nt nb : list change) (e : err) :
  dry_run cfg = false ->
  falsy (work_dir cfg) = false ->
  reconcile cfg w = (pre, Ok (nt, nb)) ->
  nb <> [] ->
  (forall x, In x nt -> git_createTag w (versionTag x) = Ok tt) ->
  (forall x, In x nb -> exec_exec w "cr" (package_args cfg x) = Ok tt) ->
  exec_exec w "cr" (upload_args cfg) = Throw e ->
  failed (fst (action cfg w)) = true
  /\ filter is_mutation (fst (action cfg w))
     = map create_call nt ++ map (package_call cfg) nb
       ++ [EExec "cr" (upload_args cfg)].
Proof.
  intros Hdry Hw Hrec Hne Ht Hp He.
  assert (Hsteps : release_steps cfg w nt nb
                   = (tag_stage_log nt
                      ++ EInfo ("Packaging charts: " ++ tagList nb)%string
                           :: map (package_call cfg) nb
                           ++ [EInfo ("Publishing charts: " ++ tagList nb)%string;
                               EExec "cr" (upload_args cfg)],
                      Throw e)).
  { rewrite release_steps_stages, (tag_stage_real cfg w nt Hdry Ht), bind_pair.
    now rewrite (build_stage_upload_fails cfg w nb e Hdry Hne Hp He). }
  pose proof (action_after_reconcile cfg w pre _ nt nb _ Hw Hrec Hsteps) as Hact.
  rewrite Hact. cbn [fst]. split.
  - unfold failed, report. rewrite !existsb_app. cbn. now rewrite !orb_true_r.
  - rewrite !filter_app.
    rewrite (quiet_log _ _ _ (reconcile_quiet cfg w) Hrec), tag_stage_log_mutations.
    cbn [app filter is_mutation report].
    rewrite filter_app, filter_mutation_packages. cbn. now rewrite app_nil_r.
Qed.

Lemma upload_failure_skips_the_index_witness :
  exec_exec Vary.upload_fails "cr" (upload_args (Demo.cfg Demo.workspace false))
  = Throw "Error: cr exited with code 1"
  /\ failed (fst (action (Demo.cfg Demo.workspace false) Vary.upload_fails)) = true
  /\ filter is_mutation
       (fst (action (Demo.cfg Demo.workspace false) Vary.upload_fails))
     = [ECreateTag "foo-1.2.0"; ECreateTag "other-0.3.1";
        EExec "cr" [JStr "package"; JStr "charts/foo"];
        EExec "cr" [JStr "package"; JStr "charts/other"];
        EExec "cr" [JStr "upload"; JStr "-o"; JStr "example"; JStr "-r";
                    JStr "charts"; JStr "-c"; JStr "4f2a9c1"]].
Proof.
  split; [reflexivity |].
  apply (upload_failure_skips_the_index (Demo.cfg Demo.workspace false)
           Vary.upload_fails
           (fst (reconcile (Demo.cfg Demo.workspace false) Vary.upload_fails))
           Vary.foo_other Vary.foo_other "Error: cr exited with code 1");
    first [reflexivity | discriminate | each_record].
Defined.

(** ** Runs that do nothing, and runs that fail early *)

Section Early.

Variable cfg : inputs.
Variable w : world.

(** When the tool fetch or one of the Prepare calls fails, [main] throws
    and has made setup calls only. *)
Lemma main_stops_at_setup :
  succeeded (snd (fetchTools cfg w)) && prepare_succeeds cfg w = false ->
  only is_setup (main cfg w) /\ exists e, snd (main cfg w) = Throw e.
Proof.
  intros H. rewrite main_eq. pose proof (fetchTools_setup cfg w) as Hf.
  unfold prepare_succeeds in H.
  destruct (fetchTools cfg w) as [tf [[] | e]]; cbn [snd succeeded andb] in H.
  - destruct (io_rmRF w (template (work_dir cfg) ++ "/.cr-release-packages")%string)
      as [[] | e1]; cbn [succeeded andb] in H.
    + destruct (io_mkdirP w (template (work_dir cfg) ++ "/.cr-release-packages")%string)
        as [[] | e2]; cbn [succeeded andb] in H.
      * destruct (io_rmRF w (template (work_dir cfg) ++ "/.cr-index")%string)
          as [[] | e3]; cbn [succeeded andb] in H.
        -- destruct (io_mkdirP w (template (work_dir cfg) ++ "/.cr-index")%string)
             as [[] | e4]; cbn [succeeded andb] in H; [discriminate |].
           split; [| now exists e4].
           unfold only. cbn. apply Forall_app. split; [exact Hf |].
           now repeat constructor.
        -- split; [| now exists e3].
           unfold only. cbn. apply Forall_app. split; [exact Hf |].
           now repeat constructor.
      * split; [| now exists e2].
        unfold only. cbn. apply Forall_app. split; [exact Hf |].
        now repeat constructor.
    + split; [| now exists e1].
      unfold only. cbn. apply Forall_app. split; [exact Hf |].
      now repeat constructor.
  - split; [exact Hf | now exists e].
Qed.

Lemma getChangedCharts_nothing (paths : list string) :
  git_getLatestChanges w = Ok paths ->
  filter (isManifestChange cfg) paths = [] ->
  getChangedCharts cfg w = ([EGetLatestChanges], Ok []).
Proof.
  intros Hlatest Hnone.
  rewrite (getChangedCharts_run cfg w
             (fun _ => {| doc_name := JUndefined; doc_version := JUndefined |})
             paths Hlatest).
  - now rewrite Hnone.
  - intros p Hin Hp.
    assert (Hf : In p (filter (isManifestChange cfg) paths))
      by (apply filter_In; now split).
    rewrite Hnone in Hf. destruct Hf.
Qed.

End Early.

(** X9. Nothing to do.  If no changed path passes the filter of the
    extractor, then, with the workspace set and the tool fetch and
    Prepare succeeding, the action asks git for the changes, makes no
    manifest read, no existence check and no mutating call, logs "No tags
    to create" and "Nothing to build", and completes, in a dry run and in
    a real one alike. *)
Theorem no_manifest_changed (cfg : inputs) (w : world) (tf : list event)
    (paths : list string) :
  falsy (work_dir cfg) = false ->
  fetchTools cfg w = (tf, Ok tt) ->
  prepare_succeeds cfg w = true ->
  git_getLatestChanges w = Ok paths ->
  filter (isManifestChange cfg) paths = [] ->
  action cfg w
  = (tf ++ prepare_log cfg
        ++ [EGetLatestChanges;
            EInfo "No tags to create";
            EInfo "Nothing to build";
            EInfo "Action Completed Successfully"],
     Ok tt).
Proof.
  intros Hw Hf Hprep Hlatest Hnone.
  unfold prepare_succeeds in Hprep.
  apply andb_prop in Hprep as [Hprep Hm2]. apply andb_prop in Hprep as [Hprep Hr2].
  apply andb_prop in Hprep as [Hr1 Hm1].
  apply succeeded_unit in Hr1, Hm1, Hr2, Hm2.
  pose proof (main_run cfg w tf [EGetLatestChanges] [] [] [] [] []
                Hf Hr1 Hm1 Hr2 Hm2
                (getChangedCharts_nothing cfg w paths Hlatest Hnone)
                eq_refl eq_refl) as Hmain.
  cbn [release_steps nonempty] in Hmain.
  rewrite (action_completes cfg w _ Hw Hmain).
  f_equal. rewrite <- !app_assoc. reflexivity.
Qed.

Lemma no_manifest_changed_witness :
  filter (isManifestChange (Demo.cfg Demo.workspace false))
         ["docs/foo/Chart.yaml"; "README.md"; "chart/foo/Chart.yaml"] = []
  /\ action (Demo.cfg Demo.workspace false) Demo.outside
     = (fst (fetchTools (Demo.cfg Demo.workspace false) Demo.outside)
        ++ prepare_log (Demo.cfg Demo.workspace false)
        ++ [EGetLatestChanges;
            EInfo "No tags to create";
            EInfo "Nothing to build";
            EInfo "Action Completed Successfully"],
        Ok tt).
Proof.
  split; [reflexivity |].
  apply (no_manifest_changed (Demo.cfg Demo.workspace false) Demo.outside
           (fst (fetchTools (Demo.cfg Demo.workspace false) Demo.outside))
           ["docs/foo/Chart.yaml"; "README.md"; "chart/foo/Chart.yaml"]);
    reflexivity.
Defined.

(** X10. A failure of the tool fetch or of Prepare is fatal before any
    work on the repository: if the download, the unpacking or the caching
    of [cr] fails, or one of the four directory calls does, the run is
    reported as failed and the action has made setup calls and the report
    only: it has not asked git for the changes, read a manifest, made an
    existence check or a mutating call. *)
Theorem setup_failure_is_fatal (cfg : inputs) (w : world) :
  succeeded (snd (fetchTools cfg w)) && prepare_succeeds cfg w = false ->
  Forall (fun e => is_setup e = true) (fst (action cfg w))
  /\ failed (fst (action cfg w)) = true.
Proof.
  intros H.
  destruct (main_stops_at_setup cfg w H) as [Honly [e He]].
  pose proof (action_reports cfg w (fst (main cfg w)) e) as Hact.
  rewrite <- He, <- surjective_pairing in Hact. specialize (Hact eq_refl).
  rewrite Hact. cbn [fst]. split.
  - apply Forall_app. split.
    + destruct (falsy (work_dir cfg)); repeat constructor.
    + apply Forall_app. split; [exact Honly | now repeat constructor].
  - unfold failed. rewrite !existsb_app. cbn. now rewrite !orb_true_r.
Qed.

Lemma setup_failure_is_fatal_witness :
  prepare_succeeds (Demo.cfg Demo.workspace false) Vary.read_only = false
  /\ snd (fetchTools (Demo.cfg Demo.workspace false) Vary.bad_archive)
     = Throw "Error: tar exited with code 2"
  /\ fst (action (Demo.cfg Demo.workspace false) Vary.bad_archive)
     = [EDownloadTool
          "https://github.com/helm/chart-releaser/releases/download/v3.8.0/chart-releaser_3.8.0_linux_amd64.tar.gz";
        EExtractTar "/tmp/cr.tar.gz" "tools/chart-releaser";
        EError "Error: tar exited with code 2";
        ESetFailed "Error during action execution! Error: tar exited with code 2"]
  /\ Forall (fun e => is_setup e = true)
            (fst (action (Demo.cfg Demo.workspace false) Vary.read_only))
  /\ failed (fst (action (Demo.cfg Demo.workspace false) Vary.read_only)) = true.
Proof.
  split; [reflexivity |]. split; [reflexivity |]. split; [reflexivity |].
  apply (setup_failure_is_fatal (Demo.cfg Demo.workspace false) Vary.read_only).
  reflexivity.
Defined.


(** ** What the action never does *)

Section Every.

Variable P : event -> Prop.

Lemma every_bind {A B} (m : run A) (f : A -> run B) :
  Forall P (fst m) ->
  (forall a, snd m = Ok a -> Forall P (fst (f a))) ->
  Forall P (fst (bind m f)).
Proof.
  destruct m as [t [a | e]]; cbn [fst snd]; intros Hm Hf; [| exact Hm].
  rewrite bind_pair. cbn [fst]. apply Forall_app. split; [exact Hm |].
  now apply Hf.
Qed.

Lemma every_foldM {A B} (body : B -> A -> run B) (l : list A) :
  (forall acc x, In x l -> Forall P (fst (body acc x))) ->
  forall acc, Forall P (fst (foldM body l acc)).
Proof.
  induction l as [| x l IH]; cbn [foldM]; intros Hbody acc.
  - constructor.
  - apply every_bind; [apply Hbody; now left |].
    intros acc' _. apply IH. intros; apply Hbody; now right.
Qed.

End Every.

Section Never.

Variable cfg : inputs.
Variable w : world.

(** The log of the action, from the log and the outcome of [main]. *)
Lemma action_log :
  action cfg w
  = ((if falsy (work_dir cfg)
      then [ESetFailed "Unable to locate workspace!"] else [])
     ++ fst (main cfg w)
     ++ match snd (main cfg w) with
        | Ok _ => [EInfo "Action Completed Successfully"]
        | Throw e => report e
        end,
     Ok tt).
Proof.
  unfold action.
  destruct (main cfg w) as [t [[] | e]]; destruct (falsy (work_dir cfg));
    reflexivity.
Qed.

Lemma reconcile_parts (nt nb : list change) :
  snd (reconcile cfg w) = Ok (nt, nb) ->
  exists changes,
    snd (getChangedCharts cfg w) = Ok changes
    /\ snd (getNeededTags w changes) = Ok nt
    /\ snd (getNeededBuilds w changes) = Ok nb.
Proof.
  unfold reconcile.
  destruct (fetchTools cfg w) as [tf [[] | e]]; [| discriminate].
  rewrite !bind_pair.
  destruct (io_rmRF w _) as [[] | e]; [| discriminate].
  destruct (io_mkdirP w _) as [[] | e]; [| discriminate].
  destruct (io_rmRF w _) as [[] | e]; [| discriminate].
  destruct (io_mkdirP w _) as [[] | e]; [| discriminate].
  rewrite !bind_call. cbn [fst snd].
  destruct (getChangedCharts cfg w) as [tx [changes | e]]; [| discriminate].
  rewrite !bind_pair.
  destruct (getNeededTags w changes) as [tn [nt' | e]] eqn:Hn; [| discriminate].
  rewrite !bind_pair.
  destruct (getNeededBuilds w changes) as [tb [nb' | e]] eqn:Hb; [| discriminate].
  rewrite !bind_pair. cbn [fst snd ret]. intros [= <- <-].
  exists changes. now rewrite Hn, Hb.
Qed.

Lemma quiet_is_allowed (changes : list change) (log : list event) :
  Forall (fun e => quiet e = true) log -> Forall (allowed cfg changes) log.
Proof.
  apply Forall_impl. intros e He. now destruct e.
Qed.

Lemma release_steps_allowed (changes nt nb : list change) :
  incl nt changes -> incl nb changes ->
  Forall (allowed cfg changes) (fst (release_steps cfg w nt nb)).
Proof.
  intros Hnt Hnb. rewrite release_steps_stages.
  apply every_bind; [| intros _ _].
  - unfold tag_stage, skipIfDryRun.
    destruct (nonempty nt); [| now repeat constructor].
    apply every_bind; [now repeat constructor | intros _ _].
    apply every_bind; [| intros; constructor].
    destruct (negb (dry_run cfg)); [| now repeat constructor].
    apply every_bind; [| intros; constructor].
    unfold createTags, for_of. apply every_foldM. intros _ c Hc.
    constructor; [| constructor]. exists c.
    split; [now apply Hnt | reflexivity].
  - unfold build_stage, skipIfDryRun.
    destruct (nonempty nb); [| now repeat constructor].
    apply every_bind; [now repeat constructor | intros _ _].
    apply every_bind; [| intros _ _].
    { destruct (negb (dry_run cfg)); [| now repeat constructor].
      apply every_bind; [| intros; constructor].
      unfold packageCharts, for_of, cr. apply every_foldM. intros _ c Hc.
      constructor; [| constructor]. split; [reflexivity |].
      right; right. exists c. split; [now apply Hnb | reflexivity]. }
    apply every_bind; [now repeat constructor | intros _ _].
    apply every_bind; [| intros _ _].
    { destruct (negb (dry_run cfg)); [| now repeat constructor].
      apply every_bind; [| intros; constructor].
      constructor; [| constructor]. split; [reflexivity | now left]. }
    apply every_bind; [now repeat constructor | intros _ _].
    apply every_bind; [| intros; constructor].
    destruct (negb (dry_run cfg)); [| now repeat constructor].
    apply every_bind; [| intros; constructor].
    constructor; [| constructor]. split; [reflexivity | right; now left].
Qed.

Lemma release_steps_no_query (nt nb : list change) :
  only no_query (release_steps cfg w nt nb).
Proof.
  unfold release_steps, skipIfDryRun, createTags, packageCharts,
    publishCharts, updateIndex, cr.
  only_tac.
Qed.

Lemma phased_split (pre post : list event) :
  filter is_mutation pre = [] -> filter is_query post = [] ->
  phased (pre ++ post).
Proof. intros Hpre Hpost. now exists pre, post. Qed.

End Never.

(** X12. The action only tags and packages what it extracted: every
    [git.createTag] call creates the tag of a record of the extracted
    change set, and every [exec] call runs [cr], either to package
    [chart_dir/<chart>] for a record of the change set, or as the upload,
    or as the index; whatever the collaborators answer and whether or not
    a step fails. *)
Theorem mutations_come_from_the_change_set (cfg : inputs) (w : world)
    (changes : list change) :
  snd (getChangedCharts cfg w) = Ok changes ->
  Forall (allowed cfg changes) (fst (action cfg w)).
Proof.
  intros Hx. rewrite action_log. cbn [fst].
  apply Forall_app. split;
    [destruct (falsy (work_dir cfg)); now repeat constructor |].
  apply Forall_app. split;
    [| destruct (snd (main cfg w)); now repeat constructor].
  rewrite main_reconcile. apply every_bind.
  - apply quiet_is_allowed, reconcile_quiet.
  - intros [nt nb] Hrec.
    destruct (reconcile_parts cfg w nt nb Hrec) as (changes' & Hx' & Hnt & Hnb).
    assert (changes' = changes) by congruence. subst changes'.
    apply release_steps_allowed.
    + now apply (getNeededTags_incl w changes).
    + now apply (getNeededBuilds_incl w changes).
Qed.

Lemma mutations_come_from_the_change_set_witness :
  snd (getChangedCharts (Demo.cfg Demo.workspace false) Vary.package_fails)
  = Ok Vary.foo_other
  /\ Forall (allowed (Demo.cfg Demo.workspace false) Vary.foo_other)
            (fst (action (Demo.cfg Demo.workspace false) Vary.package_fails)).
Proof.
  split; [reflexivity |].
  apply (mutations_come_from_the_change_set (Demo.cfg Demo.workspace false)
           Vary.package_fails Vary.foo_other).
  reflexivity.
Defined.

(** X13. Every existence check precedes every mutating call: the log of
    the action splits into a first part without tag creation or [cr]
    call and a second part without [git.hasTag] or release query,
    whatever the collaborators answer.  The answers of the oracles are
    therefore never taken after the action has changed what they
    report. *)
Theorem checks_precede_mutations (cfg : inputs) (w : world) :
  phased (fst (action cfg w)).
Proof.
  rewrite action_log, main_reconcile. cbn [fst].
  pose proof (reconcile_quiet cfg w) as Hq.
  destruct (reconcile cfg w) as [pre [[nt nb] | e]];
    assert (Hpre : filter is_mutation pre = [])
      by exact (only_quiet_no_mutation _ Hq).
  - rewrite bind_pair. cbn [fst snd].
    pose proof (release_steps_no_query cfg w nt nb) as Hn.
    destruct (release_steps cfg w nt nb) as [t r]. cbn [fst snd].
    rewrite <- app_assoc, app_assoc. apply phased_split.
    + rewrite filter_app, Hpre. now destruct (falsy (work_dir cfg)).
    + rewrite filter_app. unfold only in Hn. cbn [fst] in Hn.
      rewrite (filter_none is_query t Hn). now destruct r.
  - cbn [bind fst snd]. rewrite app_assoc. apply phased_split.
    + rewrite filter_app, Hpre. now destruct (falsy (work_dir cfg)).
    + reflexivity.
Qed.

(** ** Which paths the filter of the extractor accepts *)

Section Paths.

Lemma prefix_append (d x : string) : String.prefix d (d ++ x)%string = true.
Proof.
  induction d as [| c d IH]; [now destruct x |]. cbn.
  now destruct (ascii_dec c c).
Qed.

Lemma split_not_nil (s : string) : split "/" s <> [].
Proof.
  destruct s as [| c s]; [discriminate |]. cbn.
  destruct (Ascii.eqb c "/"); [discriminate |].
  destruct (split "/" s); discriminate.
Qed.

Lemma split_no_slash (s : string) : has_slash s = false -> split "/" s = [s].
Proof.
  induction s as [| c s IH]; [reflexivity |]. cbn.
  destruct (Ascii.eqb c "/"); [discriminate |]. cbn [orb]. intros H.
  now rewrite (IH H).
Qed.

(** Dropping segments, one character at a time. *)
Lemma skipn_split_cons (k : nat) (c : ascii) (s : string) :
  skipn (S k) (split "/" (String c s))
  = if Ascii.eqb c "/" then skipn k (split "/" s)
    else skipn (S k) (split "/" s).
Proof.
  cbn [split]. destruct (Ascii.eqb c "/"); [reflexivity |].
  pose proof (split_not_nil s) as Hne.
  destruct (split "/" s) as [| seg segs]; [contradiction | reflexivity].
Qed.

Lemma skipn_split_segment (k : nat) (d r : string) :
  has_slash d = false ->
  skipn (S k) (split "/" (d ++ "/" ++ r)%string) = skipn k (split "/" r).
Proof.
  induction d as [| c d IH]; intros H.
  - reflexivity.
  - cbn [has_slash] in H. apply orb_false_elim in H as [Hc Hd].
    change (String c d ++ "/" ++ r)%string with (String c (d ++ "/" ++ r)%string).
    rewrite skipn_split_cons, Hc. now apply IH.
Qed.

Lemma join_cons (x : string) (l : list string) :
  join "" (x :: l) = (x ++ join "" l)%string.
Proof.
  unfold join. destruct l as [| y l]; cbn [String.concat].
  - induction x as [| c x IH]; [reflexivity |]. cbn. now rewrite <- IH.
  - reflexivity.
Qed.

Lemma join_split (s : string) : join "" (split "/" s) = strip s.
Proof.
  induction s as [| c s IH]; [reflexivity |]. cbn [split strip].
  destruct (Ascii.eqb c "/").
  - now rewrite join_cons.
  - pose proof (split_not_nil s) as Hne.
    destruct (split "/" s) as [| seg segs]; [contradiction |].
    rewrite join_cons in *. cbn. now rewrite IH.
Qed.

Lemma strip_append (a b : string) :
  strip (a ++ b) = (strip a ++ strip b)%string.
Proof.
  induction a as [| c a IH]; [reflexivity |]. cbn.
  destruct (Ascii.eqb c "/"); [exact IH | cbn; now rewrite IH].
Qed.

Lemma strip_no_slash (s : string) : has_slash s = false -> strip s = s.
Proof.
  induction s as [| c s IH]; [reflexivity |]. cbn.
  destruct (Ascii.eqb c "/"); [discriminate |]. cbn [orb]. intros H.
  now rewrite (IH H).
Qed.

Lemma length_append (a b : string) :
  String.length (a ++ b) = String.length a + String.length b.
Proof. induction a as [| c a IH]; [reflexivity |]. cbn. now rewrite IH. Qed.

(** What is left after the first segment holds all of [y] but its
    slashes. *)
Lemma after_one_segment (x y : string) :
  String.length (strip y)
  <= String.length (join "" (skipn 1 (split "/" (x ++ "/" ++ y)%string))).
Proof.
  induction x as [| c x IH].
  - change ("" ++ "/" ++ y)%string with (String "/" y).
    rewrite skipn_split_cons. cbn [Ascii.eqb Bool.eqb skipn].
    now rewrite join_split.
  - change (String c x ++ "/" ++ y)%string with (String c (x ++ "/" ++ y)%string).
    rewrite skipn_split_cons. destruct (Ascii.eqb c "/"); [| exact IH].
    cbn [skipn]. rewrite join_split, strip_append, length_append.
    cbn [strip append Ascii.eqb Bool.eqb]. lia.
Qed.

Lemma after_two_segments (d y : string) :
  has_slash d = true ->
  String.length (strip y)
  <= String.length (join "" (skipn 2 (split "/" (d ++ "/" ++ y)%string))).
Proof.
  induction d as [| c d IH]; [discriminate |]. cbn [has_slash].
  change (String c d ++ "/" ++ y)%string with (String c (d ++ "/" ++ y)%string).
  rewrite skipn_split_cons. destruct (Ascii.eqb c "/"); cbn [orb].
  - intros _. apply after_one_segment.
  - exact IH.
Qed.

Lemma eqb_length (s t : string) :
  String.length s <> String.length t -> (s =? t)%string = false.
Proof.
  intros H. apply String.eqb_neq. intros ->. now apply H.
Qed.

End Paths.

(** X14. The manifest directly under a package directory is detected
    when the chart directory is a single path segment: for a chart
    directory and a package directory name without [/], the path
    [chart_dir/pkg/Chart.yaml] passes the filter of the extractor, which
    reads exactly that manifest and, when the read yields a manifest,
    adds its record. *)
Theorem manifest_under_package_is_detected (cfg : inputs) (w : world)
    (pkg : string) (changed : list change) :
  has_slash (chart_dir cfg) = false ->
  has_slash pkg = false ->
  isManifestChange cfg (manifest_of cfg pkg) = true
  /\ fst (changed_step cfg w changed (manifest_of cfg pkg))
     = [ELoadChart (manifest_path cfg w (manifest_of cfg pkg))]
  /\ (forall d,
        yaml_load w (manifest_path cfg w (manifest_of cfg pkg)) = Ok (Some d) ->
        snd (changed_step cfg w changed (manifest_of cfg pkg))
        = Ok (changed ++ [{| chart := doc_name d; version := doc_version d |}])).
Proof.
  intros Hdir Hpkg.
  assert (Hp : isManifestChange cfg (manifest_of cfg pkg) = true).
  { unfold isManifestChange, manifest_of, startsWith.
    rewrite prefix_append. cbn [andb].
    rewrite (skipn_split_segment 1 (chart_dir cfg) _ Hdir).
    change (pkg ++ "/Chart.yaml")%string with (pkg ++ "/" ++ "Chart.yaml")%string.
    rewrite (skipn_split_segment 0 pkg _ Hpkg). reflexivity. }
  split; [exact Hp |].
  rewrite (changed_step_load cfg w changed _ Hp). unfold loadChart.
  destruct (yaml_load w (manifest_path cfg w (manifest_of cfg pkg)))
    as [[d |] | e]; (split; [reflexivity |]); intros d' [= <-]; reflexivity.
Qed.

Lemma manifest_under_package_is_detected_witness :
  has_slash (chart_dir (Demo.cfg Demo.workspace false)) = false
  /\ manifest_of (Demo.cfg Demo.workspace false) "foo" = "charts/foo/Chart.yaml"
  /\ isManifestChange (Demo.cfg Demo.workspace false) "charts/foo/Chart.yaml" = true.
Proof.
  split; [reflexivity |]. split; [reflexivity |].
  exact (proj1 (manifest_under_package_is_detected
                  (Demo.cfg Demo.workspace false) Demo.fresh "foo" []
                  eq_refl eq_refl)).
Defined.

(** X15. A chart directory of more than one segment detects nothing:
    when the configured chart directory holds a [/] (as in
    [deploy/charts]), the manifest [chart_dir/pkg/Chart.yaml] of a
    package directory with a non-empty name without [/] does not pass
    the filter, because the package is taken to be the second segment of
    the path; the extractor skips it without reading it. *)
Theorem nested_chart_dir_detects_nothing (cfg : inputs) (w : world)
    (pkg : string) (changed : list change) :
  has_slash (chart_dir cfg) = true ->
  has_slash pkg = false ->
  pkg <> ""%string ->
  isManifestChange cfg (manifest_of cfg pkg) = false
  /\ changed_step cfg w changed (manifest_of cfg pkg) = ([], Ok changed).
Proof.
  intros Hdir Hpkg Hne.
  assert (Hp : isManifestChange cfg (manifest_of cfg pkg) = false).
  { unfold isManifestChange, manifest_of. apply andb_false_intro2.
    apply eqb_length.
    pose proof (after_two_segments (chart_dir cfg) (pkg ++ "/Chart.yaml") Hdir)
      as Hlen.
    rewrite strip_append, (strip_no_slash pkg Hpkg), length_append in Hlen.
    cbn [strip Ascii.eqb Bool.eqb String.length] in Hlen.
    destruct pkg as [| c pkg']; [contradiction |].
    cbn [String.length] in *. lia. }
  split; [exact Hp |].
  now rewrite (changed_step_skip cfg w changed _ Hp).
Qed.

Lemma nested_chart_dir_detects_nothing_witness :
  chart_dir Vary.nested_root = "deploy/charts"
  /\ manifest_of Vary.nested_root "foo" = "deploy/charts/foo/Chart.yaml"
  /\ isManifestChange Vary.nested_root "deploy/charts/foo/Chart.yaml" = false
  /\ changed_step Vary.nested_root Demo.fresh [] "deploy/charts/foo/Chart.yaml"
     = ([], Ok []).
Proof.
  split; [reflexivity |]. split; [reflexivity |].
  apply (nested_chart_dir_detects_nothing Vary.nested_root Demo.fresh "foo" []).
  - reflexivity.
  - reflexivity.
  - discriminate.
Defined.

(** ** A dry run against a real run *)

Section DryAgainstReal.

Variable cfg : inputs.
Variable w : world.









End DryAgainstReal.




